(** * A shallow embedding of [rag_chatbot.py]

  The retrieval-augmented chatbot: knowledge-base construction
  ([_build_knowledge_base]), retrieval ([_retrieve_relevant_info]) and
  the routing done by [respond], together with the properties the
  design document states about them.

  Python strings are modelled as [string], lists as [list],
  dictionaries as [gmap], exceptions and attribute mutation with a
  state-and-exception monad over the object state.  The string methods
  whose result depends on the Unicode database ([str.strip],
  [str.lower], [repr]) are parameters, like the embedding model. *)

From Stdlib Require Import ZArith String Ascii List Bool Lia.
From Stdlib Require Import Sorting.Sorted.
From stdpp Require Import base option list gmap strings pretty.

Local Open Scope string_scope.
Local Open Scope list_scope.
Local Open Scope nat_scope.

(** ** Python string primitives *)

Module PyStr.

(** The newline character of the f-string templates. *)
Definition nl : string := String (ascii_of_nat 10) EmptyString.

(** [sub in s] *)
Fixpoint contains (sub s : string) : bool :=
  match s with
  | EmptyString => (sub =? EmptyString)%string
  | String _ s' => String.prefix sub s || contains sub s'
  end.

(** [s.endswith(suffix)] *)
Definition endswith (s suffix : string) : bool :=
  let n := String.length s in
  let m := String.length suffix in
  (m <=? n) && (substring (n - m) m s =? suffix)%string.

(** [s.rfind(c)] for a one-character needle: the highest index, or -1. *)
Fixpoint rfind_from (c : ascii) (s : string) (i : Z) (best : Z) : Z :=
  match s with
  | EmptyString => best
  | String a s' => rfind_from c s' (i + 1) (if Ascii.eqb a c then i else best)
  end.

Definition rfind (c : ascii) (s : string) : Z := rfind_from c s 0 (-1).

(** [s[:i]] and [s[i:]] for [0 <= i <= len(s)]. *)
Definition slice_to (s : string) (i : nat) : string := substring 0 i s.
Definition slice_from (s : string) (i : nat) : string :=
  substring i (String.length s - i) s.

End PyStr.

(** ** [os.path.splitext] (posixpath) *)

Module OsPath.
Import PyStr.

(** The loop of [genericpath._splitext] that skips the leading dots of
    the last path component: [n] characters remain before [dotIndex]. *)
Fixpoint skip_leading_dots (p : string) (filenameIndex n dotIndex : nat)
  : string * string :=
  match n with
  | O => (p, EmptyString)
  | S n' =>
      match String.get filenameIndex p with
      | Some c =>
          if Ascii.eqb c "." then
            skip_leading_dots p (S filenameIndex) n' dotIndex
          else (slice_to p dotIndex, slice_from p dotIndex)
      | None => (p, EmptyString)
      end
  end.

Definition splitext (p : string) : string * string :=
  let sepIndex := rfind "/" p in
  let dotIndex := rfind "." p in
  if (sepIndex <? dotIndex)%Z then
    let filenameIndex := Z.to_nat (sepIndex + 1) in
    skip_leading_dots p filenameIndex
      (Z.to_nat dotIndex - filenameIndex) (Z.to_nat dotIndex)
  else (p, EmptyString).

End OsPath.

(** ** Exceptions and outcomes *)

(** The exceptions that reach the two [except Exception] handlers.  All
    of them derive from [Exception]. *)
Inductive exn : Type :=
| IndexError
| KeyError (key : string)
| AttributeError (tyname : string)
| AssertionError
| ExternalError (msg : string).

Inductive outcome (A : Type) : Type :=
| Return (a : A)
| Raise (e : exn).

Arguments Return {A} a.
Arguments Raise {A} e.

(** ** Documents *)

(** A field of a loaded problem: a JSON string or null. *)
Inductive field : Type :=
| FStr (s : string)
| FNone.

(** What [load_problem] hands back: a dictionary, or some other object
    (on which [.get] raises [AttributeError]). *)
Inductive problem : Type :=
| Dict (fields : gmap string field)
| NonDict (tyname : string).

(** [f"{problem_data.get(key, '')}"] *)
Definition format_get (fields : gmap string field) (key : string) : string :=
  match fields !! key with
  | Some (FStr s) => s
  | Some FNone => "None"
  | None => EmptyString
  end.

Definition _create_problem_context (problem_data : problem) : outcome string :=
  match problem_data with
  | Dict fields =>
      Return ("Title: " +:+ format_get fields "title" +:+ PyStr.nl +:+
              "Statement: " +:+ format_get fields "statement" +:+ PyStr.nl +:+
              "Input: " +:+ format_get fields "input" +:+ PyStr.nl +:+
              "Output: " +:+ format_get fields "output" +:+ PyStr.nl +:+
              "Solution: " +:+ format_get fields "solution")
  | NonDict tyname => Raise (AttributeError tyname)
  end.

(** The rendering as the design document words it: the five fields in
    the order title, statement, input, output, solution, each under its
    fixed label, joined by the fixed separator. *)
Definition field_order : list (string * string) :=
  [("Title: ", "title"); ("Statement: ", "statement"); ("Input: ", "input");
   ("Output: ", "output"); ("Solution: ", "solution")].

(** How a field shows in a text: a string as it is, null as [None]. *)
Definition shown (value : field) : string :=
  match value with
  | FStr s => s
  | FNone => "None"
  end.

Definition canonical_context (fields : gmap string field) : string :=
  String.concat PyStr.nl
    (map (fun lk => fst lk +:+ default EmptyString (shown <$> fields !! snd lk))
       field_order).

(** ** Collaborators

    The embedding model, the problem loader, the base chatbot and the
    generation model are imported by the source; they are parameters of
    the embedding, and so are the three string methods of the Python
    runtime whose result depends on the Unicode database.  Scores are
    32-bit floats in the source and an abstract ordered type here. *)
Record Env : Type := {
  float : Type;
  fzero : float;
  fadd : float -> float -> float;
  fmul : float -> float -> float;
  (** [fle a b] is [a <= b] *)
  fle : float -> float -> bool;
  (** the score stored in the padding slots of a search result *)
  neutral : float;
  (** [f"{score:.2f}"] *)
  format_2f : float -> string;
  (** the tokenizer and the forward pass of [_get_bert_embedding] *)
  bert : string -> outcome (list float);
  (** [load_problem(problem_id, PROBLEM_PATH, EDITORIAL_PATH)] *)
  load_problem : string -> outcome problem;
  (** the attributes of the base class [ProblemChatbot] *)
  base_state : Type;
  history : Type;
  base_init : base_state;
  base_respond : string -> base_state -> outcome string * base_state;
  current_problem : base_state -> bool;
  problem_data : base_state -> bool;
  conversation_history : base_state -> history;
  _build_context : base_state -> outcome string;
  _build_system_message : base_state -> outcome string;
  (** [HuggingFaceModelProcessor.generate_response] *)
  generate_response : string -> history -> string -> outcome string;
  (** [s.strip()], [s.lower()] and [repr(s)] of the Python runtime *)
  py_strip : string -> string;
  py_lower : string -> string;
  py_repr : string -> string
}.

Existing Class Env.

(** The dimension of [bert-base-uncased] and of [faiss.IndexFlatIP(768)]. *)
Definition DIM : nat := 768.

Section Model.
Context {E : Env}.

Abbreviation vec := (list (float E)).

(** [str(e)]; the text of a [KeyError] is the [repr] of the key. *)
Definition str (e : exn) : string :=
  match e with
  | IndexError => "list index out of range"
  | KeyError key => py_repr E key
  | AttributeError tyname => "'" +:+ tyname +:+ "' object has no attribute 'get'"
  | AssertionError => EmptyString
  | ExternalError msg => msg
  end.

(** ** The vector index *)

Record IndexFlatIP : Type := {
  d : nat;
  xb : list vec
}.

Definition ntotal (idx : IndexFlatIP) : nat := length (xb idx).

(** The vector index of the source is [faiss.IndexFlatIP], whose code is
    not part of the repository; its operations follow section 4.3 of the
    design document. *)

(** Modelled from the spec: the similarity of the index, the sum of the
    elementwise products of two vectors. *)
Definition inner_product (x y : vec) : float E :=
  fold_left (fadd E) (zip_with (fmul E) x y) (fzero E).

(** Modelled from the spec: [IndexFlatIP.add], which appends the vectors
    in order and rejects a vector whose dimension is not [d]. *)
Definition index_add (idx : IndexFlatIP) (vectors : list vec)
  : outcome IndexFlatIP :=
  if forallb (fun v => length v =? d idx) vectors
  then Return {| d := d idx; xb := xb idx ++ vectors |}
  else Raise AssertionError.

(** A search hit: a handle and a score. *)
Definition hit : Type := Z * float E.

(** Modelled from the spec: the exact scoring of [IndexFlatIP.search],
    the query against every stored vector, each under its position. *)
Definition scored (q : vec) (vectors : list vec) : list hit :=
  imap (fun i v => (Z.of_nat i, inner_product q v)) vectors.

(** [a < b] on scores. *)
Definition score_lt (a b : float E) : bool := negb (fle E b a).

(** The order of the selection heap: by score, equal scores by handle. *)
Definition hit_below (x y : hit) : bool :=
  score_lt (snd x) (snd y) ||
  (fle E (snd x) (snd y) && fle E (snd y) (snd x) && (fst x <? fst y)%Z).

(** Modelled from the spec: the ordering of [IndexFlatIP.search], by
    descending score.  The order among equal scores is the library's, not
    the insertion order the design document names: the selection heap
    orders equal scores by handle and is emptied lowest entry first, so
    of two equal scores the higher handle comes first.  The heap is kept
    here as the ranking it is emptied into, best hit first. *)
Fixpoint insert_hit (h : hit) (ranking : list hit) : list hit :=
  match ranking with
  | [] => [h]
  | h' :: rest =>
      if hit_below h' h then h :: h' :: rest
      else h' :: insert_hit h rest
  end.

(** One stored vector offered to a heap of capacity [k]: it enters while
    the heap is not full, and afterwards only if it scores strictly
    higher than the lowest entry, which it replaces. *)
Definition offer (k : nat) (h : hit) (heap : list hit) : list hit :=
  if length heap <? k then insert_hit h heap
  else match last heap with
       | Some lowest =>
           if score_lt (snd lowest) (snd h)
           then insert_hit h (removelast heap)
           else heap
       | None => heap
       end.

Definition top_hits (idx : IndexFlatIP) (q : vec) (k : nat) : list hit :=
  foldl (fun heap h => offer k h heap) [] (scored q (xb idx)).

(** The padding slot: handle -1, under a score below every real one. *)
Definition sentinel : hit := ((-1)%Z, neutral E).

(** Modelled from the spec: [IndexFlatIP.search] for the single query
    row [x], as in [distances, indices = index.search(x, k)]: a query of
    the wrong dimension is rejected; otherwise the [k] best hits, best
    first, padded to length [k] with the sentinel handle. *)
Definition search (idx : IndexFlatIP) (q : vec) (k : nat)
  : outcome (list (float E) * list Z) :=
  if length q =? d idx then
    let top := top_hits idx q k in
    let row := top ++ replicate (k - length top) sentinel in
    Return (map snd row, map fst row)
  else Raise AssertionError.

(** ** The object state *)

Record Chatbot : Type := {
  base : base_state E;
  problem_ids : list string;
  problem_data_map : gmap string problem;
  index : IndexFlatIP
}.

(** What the process does besides returning: lines printed and calls to
    the embedding model, the index and the generation model. *)
Inductive event : Type :=
| Print (line : string)
| Embed (text : string)
| IndexAdd (n : nat)
| IndexSearch (k : nat)
| Generate (prompt : string).

Record world : Type := {
  self : Chatbot;
  trace : list event
}.

(** The knowledge base: the three attributes retrieval reads. *)
Definition knowledge_base (w : world)
  : list string * gmap string problem * IndexFlatIP :=
  (problem_ids (self w), problem_data_map (self w), index (self w)).

(** ** State and exceptions *)

Definition M (A : Type) : Type := world -> outcome A * world.

#[export] Instance M_ret : MRet M := fun A a w => (Return a, w).

#[export] Instance M_bind : MBind M := fun A B k m w =>
  match m w with
  | (Return a, w') => k a w'
  | (Raise e, w') => (Raise e, w')
  end.

Definition lift {A : Type} (o : outcome A) : M A := fun w => (o, w).

(** [try: body / except Exception as e: handler e] *)
Definition try_except {A : Type} (body : M A) (handler : exn -> M A) : M A :=
  fun w =>
    match body w with
    | (Return a, w') => (Return a, w')
    | (Raise e, w') => handler e w'
    end.

Definition get_self : M Chatbot := fun w => (Return (self w), w).

Definition modify_self (f : Chatbot -> Chatbot) : M unit :=
  fun w => (Return tt, {| self := f (self w); trace := trace w |}).

Definition emit (ev : event) : M unit :=
  fun w => (Return tt, {| self := self w; trace := trace w ++ [ev] |}).

Definition print (line : string) : M unit := emit (Print line).

(** [l[i]] for a Python list and an integer index. *)
Definition list_getitem {A : Type} (l : list A) (i : Z) : outcome A :=
  let j := if (i <? 0)%Z then (i + Z.of_nat (length l))%Z else i in
  if (j <? 0)%Z then Raise IndexError
  else match l !! Z.to_nat j with
       | Some x => Return x
       | None => Raise IndexError
       end.

(** [m[key]] for a Python dictionary. *)
Definition dict_getitem (m : gmap string problem) (key : string)
  : outcome problem :=
  match m !! key with
  | Some v => Return v
  | None => Raise (KeyError key)
  end.

(** ** The methods of [Chatbot] *)

Definition _get_bert_embedding (text : string) : M vec :=
  emit (Embed text);; lift (bert E text).

(** Lines 60-62: the three appends of a successfully embedded problem. *)
Definition record_problem (problem_id : string) (problem_data : problem)
    (s : Chatbot) : Chatbot :=
  {| base := base s;
     problem_ids := problem_ids s ++ [problem_id];
     problem_data_map := <[problem_id := problem_data]> (problem_data_map s);
     index := index s |}.

(** The body of the [for] loop for one [.json] entry; [embeddings] is the
    local list, returned with the new embedding appended on success. *)
Definition build_one (problem_id : string) (embeddings : list vec)
  : M (list vec) :=
  try_except
    (problem_data ← lift (load_problem E problem_id);
     context ← lift (_create_problem_context problem_data);
     embedding ← _get_bert_embedding context;
     modify_self (record_problem problem_id problem_data);;
     mret (embeddings ++ [embedding]))
    (fun e =>
       print ("Error loading problem " +:+ problem_id +:+ ": " +:+ str e);;
       mret embeddings).

Fixpoint build_loop (listing : list string) (embeddings : list vec)
  : M (list vec) :=
  match listing with
  | [] => mret embeddings
  | p_file :: rest =>
      if PyStr.endswith p_file ".json" then
        let problem_id := fst (OsPath.splitext p_file) in
        embeddings' ← build_one problem_id embeddings;
        build_loop rest embeddings'
      else build_loop rest embeddings
  end.

(** The index object is updated in place by [add]. *)
Definition set_index (idx : IndexFlatIP) (s : Chatbot) : Chatbot :=
  {| base := base s;
     problem_ids := problem_ids s;
     problem_data_map := problem_data_map s;
     index := idx |}.

(** [self.index.add(np.array(embeddings))] *)
Definition index_add_all (embeddings : list vec) : M unit :=
  emit (IndexAdd (length embeddings));;
  s ← get_self;
  idx ← lift (index_add (index s) embeddings);
  modify_self (set_index idx).

(** [listing] is what [os.listdir(PROBLEM_PATH)] returns. *)
Definition _build_knowledge_base (listing : list string) : M unit :=
  print "Building knowledge base...";;
  embeddings ← build_loop listing [];
  (match embeddings with
   | [] => mret tt
   | _ :: _ => index_add_all embeddings
   end);;
  s ← get_self;
  print ("Knowledge base built with " +:+ pretty (length (problem_ids s))
         +:+ " problems").

(** The state [__init__] sets up before it builds the knowledge base. *)
Definition fresh : world :=
  {| self := {| base := base_init E;
                problem_ids := [];
                problem_data_map := ∅;
                index := {| d := DIM; xb := [] |} |};
     trace := [] |}.

(** [Chatbot(api_key)] over a directory listing. *)
Definition __init__ (listing : list string) : outcome unit * world :=
  _build_knowledge_base listing fresh.

Definition result : Type := string * float E * problem.

(** The [for idx, score in zip(indices[0], distances[0])] loop. *)
Fixpoint retrieve_loop (hits : list (Z * float E)) (results : list result)
  : M (list result) :=
  match hits with
  | [] => mret results
  | (idx, score) :: rest =>
      if (0 <=? idx)%Z then
        s ← get_self;
        problem_id ← lift (list_getitem (problem_ids s) idx);
        data ← lift (dict_getitem (problem_data_map s) problem_id);
        retrieve_loop rest (results ++ [(problem_id, score, data)])
      else retrieve_loop rest results
  end.

Definition index_search (query_embedding : vec) (top_k : nat)
  : M (list (float E) * list Z) :=
  emit (IndexSearch top_k);;
  s ← get_self;
  lift (search (index s) query_embedding top_k).

Definition _retrieve_relevant_info (query : string) (top_k : nat)
  : M (list result) :=
  try_except
    (query_embedding ← _get_bert_embedding query;
     '(distances, indices) ← index_search query_embedding top_k;
     retrieve_loop (zip indices distances) [])
    (fun e =>
       print ("Retrieval error: " +:+ str e);;
       mret []).

Definition greetings : list string := ["hi"; "hello"; "hey"].

(** [any(greet in user_input.lower() for greet in greetings)] *)
Definition is_greeting (user_input : string) : bool :=
  existsb (fun greet => PyStr.contains greet (py_lower E user_input)) greetings.

(** [super().respond(user_input)] *)
Definition super_respond (user_input : string) : M string :=
  fun w =>
    let '(r, b) := base_respond E user_input (base (self w)) in
    (r, {| self := {| base := b;
                      problem_ids := problem_ids (self w);
                      problem_data_map := problem_data_map (self w);
                      index := index (self w) |};
           trace := trace w |}).

(** The items of the generator joined into [rag_context]. *)
Fixpoint render_retrieved (retrieved : list result) : M (list string) :=
  match retrieved with
  | [] => mret []
  | (pid, score, data) :: rest =>
      context ← lift (_create_problem_context data);
      parts ← render_retrieved rest;
      mret (("Relevant Problem " +:+ pid +:+ " (score: " +:+ format_2f E score
             +:+ "):" +:+ PyStr.nl +:+ context) :: parts)
  end.

Definition respond (user_input : string) : M string :=
  let user_input := py_strip E user_input in
  parent_response ← super_respond user_input;
  s ← get_self;
  if is_greeting user_input || negb (current_problem E (base s)) then
    mret parent_response
  else
    retrieved ← _retrieve_relevant_info user_input 3;
    parts ← render_retrieved retrieved;
    let rag_context := String.concat PyStr.nl parts in
    s ← get_self;
    current_context ←
      (if current_problem E (base s) && problem_data E (base s) then
         context ← lift (_build_context E (base s));
         mret (PyStr.nl +:+ "Current Problem Context:" +:+ PyStr.nl +:+ context)
       else mret EmptyString);
    let final_prompt :=
      "User question: " +:+ user_input +:+ PyStr.nl +:+ PyStr.nl +:+
      "Retrieved relevant information:" +:+ PyStr.nl +:+ rag_context +:+ PyStr.nl +:+
      current_context +:+ PyStr.nl +:+ PyStr.nl +:+
      "Provide a detailed response that:" +:+ PyStr.nl +:+
      "1. Directly addresses the user's question" +:+ PyStr.nl +:+
      "2. References relevant information from similar problems when helpful" +:+ PyStr.nl +:+
      "3. Maintains focus on competitive programming best practices" in
    system_message ← lift (_build_system_message E (base s));
    emit (Generate final_prompt);;
    lift (generate_response E final_prompt (conversation_history E (base s))
            system_message).

(** ** What a run leaves behind *)

(** The lines printed, and the texts handed to the embedding model. *)
Definition printed (tr : list event) : list string :=
  omap (fun ev => match ev with Print line => Some line | _ => None end) tr.

Definition embedded (tr : list event) : list string :=
  omap (fun ev => match ev with Embed text => Some text | _ => None end) tr.

(** ** The corpus seen by the build *)

(** The documents of a directory listing are its [.json] entries, each
    identified by its [splitext] stem. *)
Definition documents (listing : list string) : list string :=
  map (fun p_file => fst (OsPath.splitext p_file))
      (filter (fun p_file => PyStr.endswith p_file ".json" = true) listing).

(** What the three fallible steps of the loop body (loading, context
    rendering, embedding) give for one document. *)
Definition ingest (problem_id : string) : outcome (problem * vec) :=
  match load_problem E problem_id with
  | Raise e => Raise e
  | Return problem_data =>
      match _create_problem_context problem_data with
      | Raise e => Raise e
      | Return context =>
          match bert E context with
          | Raise e => Raise e
          | Return embedding => Return (problem_data, embedding)
          end
      end
  end.

(** The documents that get through, in order, and those that fail. *)
Definition built (ids : list string) : list (string * (problem * vec)) :=
  omap (fun problem_id =>
          match ingest problem_id with
          | Return pv => Some (problem_id, pv)
          | Raise _ => None
          end) ids.

Definition failed (ids : list string) : list (string * exn) :=
  omap (fun problem_id =>
          match ingest problem_id with
          | Return _ => None
          | Raise e => Some (problem_id, e)
          end) ids.

(** The record of one failure: the identifier and the reason. *)
Definition failure_line (f : string * exn) : string :=
  "Error loading problem " +:+ fst f +:+ ": " +:+ str (snd f).

(** The text the build hands to the embedding model for a document, when
    it gets that far. *)
Definition context_of (problem_id : string) : option string :=
  match load_problem E problem_id with
  | Return problem_data =>
      match _create_problem_context problem_data with
      | Return context => Some context
      | Raise _ => None
      end
  | Raise _ => None
  end.

(** The retrieval loop read on the object state alone. *)
Fixpoint resolve_hits (s : Chatbot) (hits : list (Z * float E))
    (results : list result) : outcome (list result) :=
  match hits with
  | [] => Return results
  | (idx, score) :: rest =>
      if (0 <=? idx)%Z then
        match list_getitem (problem_ids s) idx with
        | Raise e => Raise e
        | Return problem_id =>
            match dict_getitem (problem_data_map s) problem_id with
            | Raise e => Raise e
            | Return data =>
                resolve_hits s rest (results ++ [(problem_id, score, data)])
            end
        end
      else resolve_hits s rest results
  end.


(** What the retrieval loop appends for a hit with a non-negative handle:
    the identifier read at the handle, the score of the hit and the
    document read under the identifier. *)
Definition resolves (s : Chatbot) (h : hit) (r : result) : Prop :=
  (0 <= fst h)%Z /\
  problem_ids s !! Z.to_nat (fst h) = Some (fst (fst r)) /\
  snd (fst r) = snd h /\
  problem_data_map s !! fst (fst r) = Some (snd r).

Definition add_events (w : world) (evs : list event) : world :=
  {| self := self w; trace := trace w ++ evs |}.

(** A computation that leaves the knowledge base as it found it. *)
Definition keeps_kb {A : Type} (m : M A) : Prop :=
  forall w, knowledge_base (snd (m w)) = knowledge_base w.

(** The summary line printed at the end of the build. *)
Definition summary_line (s : Chatbot) : string :=
  "Knowledge base built with " +:+ pretty (length (problem_ids s))
  +:+ " problems".

(** One pass of the build loop over a document, read off [ingest]: the
    local list, the object state and the events it leaves. *)
Definition step_embeddings (problem_id : string) (embeddings : list vec)
  : list vec :=
  match ingest problem_id with
  | Return (_, embedding) => embeddings ++ [embedding]
  | Raise _ => embeddings
  end.

Definition step_self (problem_id : string) (s : Chatbot) : Chatbot :=
  match ingest problem_id with
  | Return (problem_data, _) => record_problem problem_id problem_data s
  | Raise _ => s
  end.

(** The object state after the loop has gone over [ids]. *)
Definition ids_after (s : Chatbot) (ids : list string) : Chatbot :=
  foldl (fun s id => step_self id s) s ids.

Definition step_events (problem_id : string) : list event :=
  match context_of problem_id with
  | Some context => [Embed context]
  | None => []
  end ++
  match ingest problem_id with
  | Return _ => []
  | Raise e => [Print (failure_line (problem_id, e))]
  end.

End Model.

Arguments world E : clear implicits.
Arguments Chatbot E : clear implicits.
Arguments IndexFlatIP E : clear implicits.
Arguments M E A : clear implicits.
Arguments event : clear implicits.

(** ** Readings of the build and of the augmented path *)

(** Every character, or some character, of a string passes a test. *)
Fixpoint forall_chars (P : ascii -> bool) (s : string) : bool :=
  match s with
  | EmptyString => true
  | String c s' => P c && forall_chars P s'
  end.

Fixpoint exists_char (P : ascii -> bool) (s : string) : bool :=
  match s with
  | EmptyString => false
  | String c s' => P c || exists_char P s'
  end.

(** A directory entry [stem.json] whose stem holds no separator and is
    not made of dots alone. *)
Definition ordinary_entry (p_file stem : string) : Prop :=
  p_file = stem +:+ ".json" /\
  forall_chars (fun c => negb (Ascii.eqb c "/")) stem = true /\
  exists_char (fun c => negb (Ascii.eqb c ".")) stem = true.

Section Derived.
Context {E : Env}.

(** The entries of a listing the build loop works on. *)
Definition json_entries (listing : list string) : list string :=
  filter (fun p_file => PyStr.endswith p_file ".json" = true) listing.

(** The state retrieval relies on: as many identifiers as vectors, and a
    dictionary stored under every identifier. *)
Definition consistent (s : Chatbot E) : Prop :=
  length (problem_ids s) = ntotal (index s) /\
  forall id, id ∈ problem_ids s ->
             exists fields, problem_data_map s !! id = Some (Dict fields).

(** The f-string of lines 112-120 of [respond]. *)
Definition final_prompt (user_input rag_context current_context : string)
  : string :=
  "User question: " +:+ user_input +:+ PyStr.nl +:+ PyStr.nl +:+
  "Retrieved relevant information:" +:+ PyStr.nl +:+ rag_context +:+ PyStr.nl +:+
  current_context +:+ PyStr.nl +:+ PyStr.nl +:+
  "Provide a detailed response that:" +:+ PyStr.nl +:+
  "1. Directly addresses the user's question" +:+ PyStr.nl +:+
  "2. References relevant information from similar problems when helpful" +:+ PyStr.nl +:+
  "3. Maintains focus on competitive programming best practices".

(** The generator of lines 102-106 read without the state: one item per
    retrieved result, or the exception of the first rendering that fails. *)
Fixpoint render_parts (retrieved : list (result (E:=E)))
  : outcome (list string) :=
  match retrieved with
  | [] => Return []
  | (pid, score, data) :: rest =>
      match _create_problem_context data with
      | Raise e => Raise e
      | Return context =>
          match render_parts rest with
          | Raise e => Raise e
          | Return parts =>
              Return (("Relevant Problem " +:+ pid +:+ " (score: "
                       +:+ format_2f E score +:+ "):" +:+ PyStr.nl +:+ context)
                      :: parts)
          end
      end
  end.

(** Lines 108-110: the context of the current problem. *)
Definition current_context_of (b : base_state E) : outcome string :=
  if current_problem E b && problem_data E b then
    match _build_context E b with
    | Return context =>
        Return (PyStr.nl +:+ "Current Problem Context:" +:+ PyStr.nl +:+ context)
    | Raise e => Raise e
    end
  else Return EmptyString.

(** Lines 102-128 once the retrieval has returned: the outcome of
    [respond] and the events added. *)
Definition augmented (user_input : string) (b : base_state E)
    (retrieved : list (result (E:=E))) : outcome string * list event :=
  match render_parts retrieved with
  | Raise e => (Raise e, [])
  | Return parts =>
      match current_context_of b with
      | Raise e => (Raise e, [])
      | Return current_context =>
          match _build_system_message E b with
          | Raise e => (Raise e, [])
          | Return system_message =>
              let prompt := final_prompt user_input
                              (String.concat PyStr.nl parts) current_context in
              (generate_response E prompt (conversation_history E b)
                 system_message,
               [Generate prompt])
          end
      end
  end.

(** The state once the base chatbot has moved to [b]. *)
Definition with_base (b : base_state E) (w : world E) : world E :=
  {| self := {| base := b;
                problem_ids := problem_ids (self w);
                problem_data_map := problem_data_map (self w);
                index := index (self w) |};
     trace := trace w |}.

End Derived.

(** ** A stub environment

    Integer scores, a stub embedding model with fixed vectors and a stub
    loader, as the design document's test scenarios use them. *)
Module Stub.

(** A vector of dimension [DIM] with [x] in its first coordinate. *)
Definition unit_vec (x : Z) : list Z := x :: replicate (DIM - 1) 0%Z.

(** The embedding model: fails on a text that contains ["boom"],
    otherwise puts the length of the text in the first coordinate. *)
Definition stub_bert (text : string) : outcome (list Z) :=
  if PyStr.contains "boom" text then Raise (ExternalError "out of memory")
  else Return (unit_vec (Z.of_nat (String.length text))).

(** The loader: ["missing"] cannot be read, ["array"] holds a JSON list,
    every other identifier holds a problem titled by it. *)
Definition stub_load (problem_id : string) : outcome problem :=
  if (problem_id =? "missing")%string then
    Raise (ExternalError "No such file or directory")
  else if (problem_id =? "array")%string then Return (NonDict "list")
  else Return (Dict {[ "title" := FStr problem_id ]}).

(** Stand-ins for [str.strip] and [str.lower] on ASCII text: the
    whitespace and the capital letters of the ASCII range only. *)
Definition ascii_space (c : ascii) : bool :=
  let n := nat_of_ascii c in
  ((9 <=? n) && (n <=? 13)) || ((28 <=? n) && (n <=? 32)).

Definition ascii_lower_char (c : ascii) : ascii :=
  let n := nat_of_ascii c in
  if (65 <=? n) && (n <=? 90) then ascii_of_nat (n + 32) else c.

Fixpoint ascii_lower (s : string) : string :=
  match s with
  | EmptyString => EmptyString
  | String c s' => String (ascii_lower_char c) (ascii_lower s')
  end.

Fixpoint ascii_lstrip (s : string) : string :=
  match s with
  | EmptyString => EmptyString
  | String c s' => if ascii_space c then ascii_lstrip s' else s
  end.

Fixpoint ascii_rstrip (s : string) : string :=
  match s with
  | EmptyString => EmptyString
  | String c s' =>
      let r := ascii_rstrip s' in
      if ascii_space c && (r =? EmptyString)%string then EmptyString
      else String c r
  end.

Definition ascii_strip (s : string) : string := ascii_rstrip (ascii_lstrip s).

(** A stand-in for [repr] on keys without quotes or escapes. *)
Definition quoted (s : string) : string := "'" +:+ s +:+ "'".

(** The base chatbot: its state is the name of the current problem, set
    by the input ["load X"]; every input is answered by an echo. *)
Definition stub_respond (user_input : string) (b : option string)
  : outcome string * option string :=
  if String.prefix "load " user_input
  then (Return "loaded", Some (substring 5 (String.length user_input - 5) user_input))
  else (Return ("echo: " +:+ user_input), b).

Definition env : Env := {|
  float := Z;
  fzero := 0%Z;
  fadd := Z.add;
  fmul := Z.mul;
  fle := Z.leb;
  neutral := (-1000000)%Z;
  format_2f := fun z => pretty z +:+ ".00";
  bert := stub_bert;
  load_problem := stub_load;
  base_state := option string;
  history := unit;
  base_init := None;
  base_respond := stub_respond;
  current_problem := fun b => match b with Some _ => true | None => false end;
  problem_data := fun b => match b with Some _ => true | None => false end;
  conversation_history := fun _ => tt;
  _build_context := fun b => Return (default EmptyString b);
  _build_system_message := fun _ => Return "You are a helpful assistant.";
  generate_response := fun prompt _ _ => Return "generated";
  py_strip := ascii_strip;
  py_lower := ascii_lower;
  py_repr := quoted
|}.

(** An embedding model that returns one-dimensional vectors, so that the
    stored vector and the query can be read off directly. *)
Definition env1 : Env := {|
  float := Z;
  fzero := 0%Z;
  fadd := Z.add;
  fmul := Z.mul;
  fle := Z.leb;
  neutral := (-1000000)%Z;
  format_2f := fun z => pretty z +:+ ".00";
  bert := fun text => Return [Z.of_nat (String.length text)];
  load_problem := stub_load;
  base_state := option string;
  history := unit;
  base_init := None;
  base_respond := stub_respond;
  current_problem := fun b => match b with Some _ => true | None => false end;
  problem_data := fun b => match b with Some _ => true | None => false end;
  conversation_history := fun _ => tt;
  _build_context := fun b => Return (default EmptyString b);
  _build_system_message := fun _ => Return "You are a helpful assistant.";
  generate_response := fun prompt _ _ => Return "generated";
  py_strip := ascii_strip;
  py_lower := ascii_lower;
  py_repr := quoted
|}.

(** A knowledge base with exactly one document, ["p1"]. *)
Definition p1_doc : problem := Dict {[ "title" := FStr "Two Sum" ]}.

Definition one_doc : world env1 :=
  {| self := @Build_Chatbot env1 (Some "p1") ["p1"] {[ "p1" := p1_doc ]}
               (@Build_IndexFlatIP env1 1 [[2%Z]]);
     trace := [] |}.

(** An inconsistent state: the index holds a vector, the identifier
    sequence is empty. *)
Definition orphan_vector : world env1 :=
  {| self := @Build_Chatbot env1 (Some "p1") [] ∅
               (@Build_IndexFlatIP env1 1 [[2%Z]]);
     trace := [] |}.

(** A listing with a document that cannot be read, one that is not a
    dictionary, one whose context the embedding model rejects, an entry
    that is not a document, and two documents that build. *)
Definition mixed_listing : list string :=
  ["two_sum.json"; "missing.json"; "notes.txt"; "array.json"; "boom.json";
   "bfs.json"].

(** Two directory entries with the same stem: [splitext] leaves the
    leading dot of ".json" in the root. *)
Definition same_stem_listing : list string := [".json"; ".json.json"].

(** An inconsistent state of another kind: the identifier ["p1"] is
    stored, its document is not. *)
Definition no_document : world env1 :=
  {| self := @Build_Chatbot env1 (Some "p1") ["p1"] ∅
               (@Build_IndexFlatIP env1 1 [[2%Z]]);
     trace := [] |}.

(** An empty knowledge base with a current problem, over the embedding
    model that can fail. *)
Definition empty_with_problem : world env :=
  {| self := @Build_Chatbot env (Some "p1") [] ∅
               (@Build_IndexFlatIP env DIM []);
     trace := [] |}.

(** A problem with its five fields. *)
Definition two_sum_fields : gmap string field :=
  <["title" := FStr "Two Sum"]>
  (<["statement" := FStr "find a pair summing to target"]>
  (<["input" := FStr "n, then n integers"]>
  (<["output" := FStr "two indices"]>
   {[ "solution" := FStr "hash map" ]}))).

(** Three documents, two of which score the same on every query. *)
Definition p2_doc : problem := Dict {[ "title" := FStr "Graph BFS" ]}.
Definition p3_doc : problem := Dict {[ "title" := FStr "Graph DFS" ]}.

Definition tied_docs : world env1 :=
  {| self := @Build_Chatbot env1 (Some "p1") ["p1"; "p2"; "p3"]
               (<["p1" := p1_doc]> (<["p2" := p2_doc]> {[ "p3" := p3_doc ]}))
               (@Build_IndexFlatIP env1 1 [[2%Z]; [5%Z]; [5%Z]]);
     trace := [] |}.


(** A knowledge base that already holds a document, with vectors of
    dimension [DIM]. *)
Definition already_built : world env :=
  {| self := @Build_Chatbot env None ["bfs"]
               {[ "bfs" := Dict {[ "title" := FStr "bfs" ]} ]}
               (@Build_IndexFlatIP env DIM [unit_vec 50]);
     trace := [] |}.

End Stub.

(** * Properties *)

Ltac run :=
  repeat (unfold mbind, M_bind, mret, M_ret, lift, try_except, get_self,
          modify_self, emit, print, add_events in *; simpl in *).

Section BuildProofs.
Context {E : Env}.

Lemma build_one_run (problem_id : string) (embeddings : list (list (float E)))
    (w : world E) :
  build_one problem_id embeddings w =
  (Return (step_embeddings problem_id embeddings),
   {| self := step_self problem_id (self w);
      trace := trace w ++ step_events problem_id |}).
Proof.
  unfold build_one, step_embeddings, step_self, step_events, ingest,
    context_of, _get_bert_embedding, failure_line.
  run.
  destruct (load_problem E problem_id) as [pd|e]; simpl.
  - destruct (_create_problem_context pd) as [ctx|e]; simpl.
    + destruct (bert E ctx) as [v|e]; simpl.
      * reflexivity.
      * by rewrite <- app_assoc.
    + reflexivity.
  - reflexivity.
Qed.

Lemma build_loop_run (listing : list string) :
  forall (embeddings : list (list (float E))) (w : world E),
  build_loop listing embeddings w =
  (Return (foldl (fun acc id => step_embeddings id acc) embeddings
             (documents listing)),
   {| self := foldl (fun s id => step_self id s) (self w) (documents listing);
      trace := trace w ++ (documents listing ≫= step_events) |}).
Proof.
  induction listing as [|p_file rest IH]; intros embeddings w.
  - simpl. unfold documents. simpl. rewrite app_nil_r. by destruct w.
  - simpl. unfold documents. rewrite filter_cons.
    destruct (PyStr.endswith p_file ".json") eqn:Hjson.
    + rewrite decide_True by done. simpl.
      unfold mbind at 1, M_bind at 1. rewrite build_one_run.
      rewrite IH. simpl. unfold documents. by rewrite <- app_assoc.
    + rewrite decide_False by (by intros ?). apply IH.
Qed.

Lemma embeddings_after (ids : list string) :
  forall embeddings : list (list (float E)),
  foldl (fun acc id => step_embeddings id acc) embeddings ids =
  embeddings ++ map (fun b => snd (snd b)) (built ids).
Proof.
  induction ids as [|id ids IH]; intros embeddings; simpl.
  - by rewrite app_nil_r.
  - rewrite IH. unfold step_embeddings, built. simpl.
    destruct (ingest id) as [[pd v]|e]; simpl.
    + by rewrite <- app_assoc.
    + reflexivity.
Qed.

Lemma problem_ids_after (ids : list string) :
  forall s : Chatbot E,
  problem_ids (ids_after s ids) = problem_ids s ++ map fst (built ids).
Proof.
  unfold ids_after.
  induction ids as [|id ids IH]; intros s; simpl.
  - by rewrite app_nil_r.
  - rewrite IH. unfold step_self, built. simpl.
    destruct (ingest id) as [[pd v]|e]; simpl.
    + by rewrite <- app_assoc.
    + reflexivity.
Qed.

Lemma base_index_after (ids : list string) :
  forall s : Chatbot E,
  base (ids_after s ids) = base s /\ index (ids_after s ids) = index s.
Proof.
  unfold ids_after.
  induction ids as [|id ids IH]; intros s; simpl; [done|].
  destruct (IH (step_self id s)) as [-> ->].
  unfold step_self. by destruct (ingest id) as [[pd v]|e].
Qed.

Lemma printed_app (tr1 tr2 : list event) :
  printed (tr1 ++ tr2) = printed tr1 ++ printed tr2.
Proof. unfold printed. apply omap_app. Qed.

Lemma embedded_app (tr1 tr2 : list event) :
  embedded (tr1 ++ tr2) = embedded tr1 ++ embedded tr2.
Proof. unfold embedded. apply omap_app. Qed.

Lemma printed_steps (ids : list string) :
  printed (ids ≫= step_events) = map failure_line (failed ids).
Proof.
  induction ids as [|id ids IH]; [done|].
  rewrite bind_cons, printed_app, IH. unfold step_events, failed.
  rewrite printed_app. simpl.
  destruct (context_of id), (ingest id) as [pv|e]; reflexivity.
Qed.

Lemma embedded_steps (ids : list string) :
  embedded (ids ≫= step_events) = omap context_of ids.
Proof.
  induction ids as [|id ids IH]; [done|].
  rewrite bind_cons, embedded_app, IH. unfold step_events.
  rewrite embedded_app. simpl.
  destruct (context_of id), (ingest id) as [pv|e]; simpl;
    by rewrite ?app_nil_r.
Qed.

Lemma built_failed_length (ids : list string) :
  length (built ids) + length (failed ids) = length ids.
Proof.
  induction ids as [|id ids IH]; simpl; [done|].
  unfold built, failed in *. simpl.
  destruct (ingest id) as [pv|e]; simpl; lia.
Qed.

(** The whole build, from any state. *)
Lemma build_run (listing : list string) (w : world E) :
  let ids := documents listing in
  let embeddings := map (fun b => snd (snd b)) (built ids) in
  let s1 := ids_after (self w) ids in
  let tr1 := trace w ++ [Print "Building knowledge base..."]
             ++ (ids ≫= step_events) in
  _build_knowledge_base listing w =
  match embeddings with
  | [] => (Return tt, {| self := s1; trace := tr1 ++ [Print (summary_line s1)] |})
  | _ :: _ =>
      match index_add (index s1) embeddings with
      | Return idx =>
          (Return tt,
           {| self := set_index idx s1;
              trace := tr1 ++ [IndexAdd (length embeddings);
                               Print (summary_line s1)] |})
      | Raise e =>
          (Raise e,
           {| self := s1; trace := tr1 ++ [IndexAdd (length embeddings)] |})
      end
  end.
Proof.
  intros ids embeddings s1 tr1.
  unfold _build_knowledge_base.
  unfold mbind at 1, M_bind at 1. unfold print at 1, emit at 1.
  unfold mbind at 1, M_bind at 1. rewrite build_loop_run.
  rewrite embeddings_after. simpl.
  fold ids. fold embeddings. fold (ids_after (self w) ids). fold s1.
  replace ((trace w ++ [Print "Building knowledge base..."]) ++
           ids ≫= step_events) with tr1
    by (unfold tr1; by rewrite <- app_assoc).
  destruct embeddings as [|v vs] eqn:Hemb.
  - reflexivity.
  - unfold index_add_all. run.
    destruct (index_add (index s1) (v :: vs)) as [idx|e]; simpl.
    + unfold summary_line. simpl. by rewrite <- app_assoc.
    + reflexivity.
Qed.

Lemma built_ingest (ids : list string) (id : string) (pv : problem * list (float E)) :
  (id, pv) ∈ built ids <-> id ∈ ids /\ ingest id = Return pv.
Proof.
  unfold built. rewrite list_elem_of_omap. split.
  - intros (x & Hx & Hsome). destruct (ingest x) as [pv'|e] eqn:Hi; [|done].
    by simplify_eq.
  - intros [Hin Hi]. exists id. by rewrite Hi.
Qed.

Lemma ingest_steps (id : string) (pd : problem) (v : list (float E)) :
  ingest id = Return (pd, v) <->
  exists context,
    load_problem E id = Return pd /\
    _create_problem_context pd = Return context /\
    bert E context = Return v.
Proof.
  unfold ingest. split.
  - destruct (load_problem E id) as [pd'|e]; [|done].
    destruct (_create_problem_context pd') as [ctx|e] eqn:Hctx; [|done].
    destruct (bert E ctx) as [v'|e] eqn:Hv; [|done].
    intros ?; simplify_eq. by exists ctx.
  - intros (ctx & -> & -> & ->). reflexivity.
Qed.

Lemma built_dim (ids : list string) :
  (forall text v, bert E text = Return v -> length v = DIM) ->
  forallb (fun v : list (float E) => length v =? DIM)
    (map (fun b => snd (snd b)) (built ids)) = true.
Proof.
  intros Hdim. apply forallb_forall. intros v Hv.
  apply in_map_iff in Hv as ([id [pd v']] & <- & Hin). simpl.
  apply list_elem_of_In, built_ingest in Hin as [_ Hi].
  apply ingest_steps in Hi as (ctx & _ & _ & Hb).
  apply Nat.eqb_eq. eauto.
Qed.

(** A stored problem stays in the map for the rest of the loop. *)
Lemma lookup_after_keeps (ids : list string) (id : string) (pd : problem)
    (v : list (float E)) :
  ingest id = Return (pd, v) ->
  forall s : Chatbot E,
  problem_data_map s !! id = Some pd ->
  problem_data_map (ids_after s ids) !! id = Some pd.
Proof.
  intros Hi. unfold ids_after.
  induction ids as [|a ids IH]; intros s Hs; simpl; [done|].
  apply IH. unfold step_self.
  destruct (ingest a) as [[pd' v']|e] eqn:Ha; [|done]. simpl.
  destruct (decide (a = id)) as [->|Hne].
  - rewrite Hi in Ha. simplify_eq. apply lookup_insert_eq.
  - by rewrite lookup_insert_ne.
Qed.

Lemma lookup_after_built (ids : list string) (id : string) (pd : problem)
    (v : list (float E)) :
  id ∈ ids -> ingest id = Return (pd, v) ->
  forall s : Chatbot E,
  problem_data_map (ids_after s ids) !! id = Some pd.
Proof.
  intros Hin Hi.
  induction ids as [|a ids IH]; intros s; [by apply elem_of_nil in Hin|].
  apply elem_of_cons in Hin as [->|Hin].
  - change (ids_after s (a :: ids)) with (ids_after (step_self a s) ids).
    apply (lookup_after_keeps _ _ _ _ Hi).
    unfold step_self. rewrite Hi. simpl. apply lookup_insert_eq.
  - change (ids_after s (a :: ids)) with (ids_after (step_self a s) ids).
    by apply IH.
Qed.

(** Construction from a listing, when every embedding has dimension
    [DIM]: the state it reaches and the events it leaves. *)
Lemma init_run (listing : list string) :
  (forall text v, bert E text = Return v -> length v = DIM) ->
  exists w : world E,
    __init__ listing = (Return tt, w) /\
    base (self w) = base_init E /\
    problem_ids (self w) = map fst (built (documents listing)) /\
    problem_data_map (self w) =
      problem_data_map (ids_after (self fresh) (documents listing)) /\
    index (self w) =
      {| d := DIM; xb := map (fun b => snd (snd b)) (built (documents listing)) |} /\
    printed (trace w) =
      ["Building knowledge base..."] ++
      map failure_line (failed (documents listing)) ++
      ["Knowledge base built with " +:+
       pretty (length (built (documents listing))) +:+ " problems"].
Proof.
  intros Hdim. unfold __init__. rewrite build_run.
  set (ids := documents listing).
  set (s1 := ids_after (self fresh) ids).
  assert (Hids : problem_ids s1 = map fst (built ids))
    by (unfold s1; by rewrite problem_ids_after).
  destruct (base_index_after ids (self fresh)) as [Hbase Hindex].
  fold s1 in Hbase, Hindex.
  assert (Hsum : summary_line s1 =
                 "Knowledge base built with " +:+
                 pretty (length (built ids)) +:+ " problems").
  { unfold summary_line. by rewrite Hids, length_map. }
  clearbody s1.
  destruct (map (fun b => snd (snd b)) (built ids)) as [|v vs] eqn:Hemb.
  - eexists. split; [reflexivity|]. simpl.
    repeat split; try done.
    rewrite !printed_app, printed_steps, Hsum. reflexivity.
  - unfold index_add. rewrite Hindex. simpl d. simpl xb.
    rewrite <- Hemb, (built_dim ids Hdim).
    eexists. split; [reflexivity|]. simpl.
    repeat split; try done.
    rewrite !printed_app, printed_steps, Hsum. reflexivity.
Qed.

(** C1. For a corpus of N documents of which M fail while loading,
    rendering the context or embedding, the build completes, indexes
    exactly N - M entries and records the M failures, each as a line
    with the identifier and the reason; no failure aborts the build.
    The embedding model is taken to return vectors of dimension [DIM]. *)
Theorem C1_build_survives_failures (listing : list string) :
  (forall text v, bert E text = Return v -> length v = DIM) ->
  exists w : world E,
    __init__ listing = (Return tt, w) /\
    ntotal (index (self w)) =
      length (documents listing) - length (failed (documents listing)) /\
    length (problem_ids (self w)) =
      length (documents listing) - length (failed (documents listing)) /\
    printed (trace w) =
      ["Building knowledge base..."] ++
      map failure_line (failed (documents listing)) ++
      ["Knowledge base built with " +:+
       pretty (length (documents listing) - length (failed (documents listing)))
       +:+ " problems"].
Proof.
  intros Hdim.
  destruct (init_run listing Hdim) as (w & Hrun & _ & Hids & _ & Hidx & Hpr).
  pose proof (built_failed_length (documents listing)) as Hlen.
  assert (Hn : length (documents listing) - length (failed (documents listing))
               = length (built (documents listing))) by lia.
  exists w. rewrite Hn. split; [done|]. split; [|split; [|done]].
  - unfold ntotal. rewrite Hidx. simpl. by rewrite length_map.
  - by rewrite Hids, length_map.
Qed.

Lemma built_ids_sub (ids : list string) (id : string) :
  id ∈ map fst (built (E:=E) ids) -> id ∈ ids.
Proof.
  intros Hin. apply list_elem_of_In, in_map_iff in Hin as ([id' pv] & <- & Hin).
  apply list_elem_of_In, built_ingest in Hin. tauto.
Qed.

Lemma built_ids_NoDup (ids : list string) :
  NoDup ids -> NoDup (map fst (built (E:=E) ids)).
Proof.
  induction 1 as [|id ids Hnotin Hnd IH]; [constructor|].
  unfold built in *. simpl. destruct (ingest id) as [pv|e]; [|done].
  simpl. constructor; [|done].
  intros Hin. by apply built_ids_sub in Hin.
Qed.

(** C3 (amended). After construction over any listing the identifier
    sequence and the index have the same length, the number of documents
    that were embedded; the vector at position i is the embedding of the
    document whose identifier is at position i, and that document is the
    one stored under the identifier.  When the [.json] entries of the
    listing have pairwise distinct stems, the identifier of every
    document that was built occurs at exactly one position. *)
Theorem C3_parallel_sequences (listing : list string) :
  (forall text v, bert E text = Return v -> length v = DIM) ->
  exists w : world E,
    __init__ listing = (Return tt, w) /\
    length (problem_ids (self w)) = ntotal (index (self w)) /\
    ntotal (index (self w)) = length (built (documents listing)) /\
    (forall i id,
        problem_ids (self w) !! i = Some id ->
        exists problem_data embedding,
          ingest id = Return (problem_data, embedding) /\
          xb (index (self w)) !! i = Some embedding /\
          problem_data_map (self w) !! id = Some problem_data) /\
    (NoDup (documents listing) ->
     forall id pv,
       id ∈ documents listing -> ingest id = Return pv ->
       exists i,
         problem_ids (self w) !! i = Some id /\
         forall j, problem_ids (self w) !! j = Some id -> j = i).
Proof.
  intros Hdim.
  destruct (init_run listing Hdim) as (w & Hrun & _ & Hids & Hmap & Hidx & _).
  exists w. split; [done|].
  unfold ntotal. rewrite Hids, Hidx. simpl. rewrite !length_map.
  repeat split.
  - intros i id Hi. rewrite list_lookup_fmap in Hi.
    destruct (built (documents listing) !! i) as [[id' [pd v]]|] eqn:Hb;
      [|done].
    simpl in Hi. simplify_eq.
    assert (Hin : (id, (pd, v)) ∈ built (documents listing))
      by (apply list_elem_of_lookup; eauto).
    apply built_ingest in Hin as [Hin Hing].
    exists pd, v. split; [done|]. split.
    + by rewrite list_lookup_fmap, Hb.
    + rewrite Hmap. by apply (lookup_after_built _ _ _ v).
  - intros Hnd id pv Hin Hing.
    assert (Hmem : id ∈ map fst (built (documents listing))).
    { apply list_elem_of_In, in_map_iff. exists (id, pv). split; [done|].
      apply list_elem_of_In, built_ingest. done. }
    apply list_elem_of_lookup in Hmem as [i Hi].
    exists i. split; [done|]. intros j Hj.
    eapply NoDup_lookup; [by apply built_ids_NoDup| |]; eauto.
Qed.

(** C6, build side: the texts handed to the embedding model during
    construction are the rendered contexts of the documents that load and
    render, in order, and nothing else. *)
Lemma build_embeds_contexts (listing : list string) :
  embedded (trace (snd (__init__ listing))) =
  omap context_of (documents listing).
Proof.
  unfold __init__. rewrite build_run.
  destruct (map _ (built (documents listing))) as [|v vs].
  - simpl. rewrite !embedded_app, embedded_steps. simpl. by rewrite app_nil_r.
  - destruct (index_add _ _); simpl;
      rewrite !embedded_app, embedded_steps; simpl; by rewrite app_nil_r.
Qed.

End BuildProofs.

Section RetrievalProofs.
Context {E : Env}.

Lemma retrieve_loop_run (hits : list (Z * float E)) :
  forall (results : list result) (w : world E),
  retrieve_loop hits results w = (resolve_hits (self w) hits results, w).
Proof.
  induction hits as [|[idx score] rest IH]; intros results w; simpl.
  - reflexivity.
  - destruct (0 <=? idx)%Z; [|apply IH].
    run.
    destruct (list_getitem (problem_ids (self w)) idx) as [pid|e]; simpl;
      [|reflexivity].
    destruct (dict_getitem (problem_data_map (self w)) pid) as [data|e]; simpl;
      [|reflexivity].
    apply IH.
Qed.

(** The three ways a retrieval can go. *)
Lemma retrieve_run (query : string) (top_k : nat) (w : world E) :
  _retrieve_relevant_info query top_k w =
  match bert E query with
  | Raise e =>
      (Return [],
       add_events w [Embed query; Print ("Retrieval error: " +:+ str e)])
  | Return query_embedding =>
      match search (index (self w)) query_embedding top_k with
      | Raise e =>
          (Return [],
           add_events w [Embed query; IndexSearch top_k;
                         Print ("Retrieval error: " +:+ str e)])
      | Return (distances, indices) =>
          match resolve_hits (self w) (zip indices distances) [] with
          | Return results =>
              (Return results, add_events w [Embed query; IndexSearch top_k])
          | Raise e =>
              (Return [],
               add_events w [Embed query; IndexSearch top_k;
                             Print ("Retrieval error: " +:+ str e)])
          end
      end
  end.
Proof.
  unfold _retrieve_relevant_info, _get_bert_embedding, index_search.
  run.
  destruct (bert E query) as [qv|e]; simpl.
  - destruct (search (index (self w)) qv top_k) as [[distances indices]|e];
      simpl.
    + rewrite retrieve_loop_run. simpl.
      destruct (resolve_hits (self w) (zip indices distances) []); simpl;
        by rewrite <- ?app_assoc.
    + by rewrite <- !app_assoc.
  - by rewrite <- !app_assoc.
Qed.

(** A retrieval never raises, whatever the state. *)
Lemma retrieve_returns (query : string) (top_k : nat) (w : world E) :
  exists results, fst (_retrieve_relevant_info query top_k w) = Return results.
Proof.
  rewrite retrieve_run.
  destruct (bert E query) as [qv|e]; [|by eexists].
  destruct (search _ qv top_k) as [[distances indices]|e]; [|by eexists].
  destruct (resolve_hits _ _ _); by eexists.
Qed.

Lemma list_getitem_nonneg {A : Type} (l : list A) (i : Z) (x : A) :
  (0 <= i)%Z -> list_getitem l i = Return x <-> l !! Z.to_nat i = Some x.
Proof.
  intros Hi. unfold list_getitem.
  destruct (i <? 0)%Z eqn:Hneg; [lia|]. rewrite Hneg.
  destruct (l !! Z.to_nat i); split; intros; simplify_eq; done.
Qed.

Lemma resolve_hits_spec (s : Chatbot E) (hits : list hit) :
  forall results results',
  resolve_hits s hits results = Return results' ->
  exists new,
    results' = results ++ new /\
    Forall2 (resolves s) (filter (fun h : hit => (0 <= fst h)%Z) hits) new.
Proof.
  induction hits as [|[idx score] rest IH]; intros results results' Hres;
    simpl in Hres.
  - simplify_eq. exists []. rewrite app_nil_r. split; [done|constructor].
  - rewrite filter_cons. simpl.
    destruct (0 <=? idx)%Z eqn:Hidx.
    + apply Z.leb_le in Hidx. rewrite decide_True by done.
      destruct (list_getitem (problem_ids s) idx) as [pid|e] eqn:Hpid; [|done].
      unfold dict_getitem in Hres.
      destruct (problem_data_map s !! pid) as [data|] eqn:Hdata; [|done].
      apply IH in Hres as (new & -> & Hnew).
      exists ((pid, score, data) :: new). rewrite <- app_assoc. split; [done|].
      constructor; [|done].
      unfold resolves. simpl. by apply list_getitem_nonneg in Hpid.
    + apply Z.leb_gt in Hidx. rewrite decide_False by lia. by apply IH.
Qed.

(** A hit with a non-negative handle past the end of the identifier
    sequence makes the loop raise. *)
Lemma resolve_hits_out_of_range (s : Chatbot E) (hits : list (Z * float E)) :
  (exists h, h ∈ hits /\ (Z.of_nat (length (problem_ids s)) <= fst h)%Z) ->
  forall results, exists e, resolve_hits s hits results = Raise e.
Proof.
  intros (h & Hin & Hge).
  induction hits as [|[idx score] rest IH]; intros results;
    [by apply elem_of_nil in Hin|].
  simpl. apply elem_of_cons in Hin as [->|Hin].
  - simpl in Hge. destruct (0 <=? idx)%Z eqn:Hidx; [|apply Z.leb_gt in Hidx; lia].
    unfold list_getitem. destruct (idx <? 0)%Z eqn:Hneg; [lia|]. rewrite Hneg.
    rewrite lookup_ge_None_2 by lia. by eexists.
  - destruct (0 <=? idx)%Z; [|by apply IH].
    destruct (list_getitem _ _); [|by eexists].
    destruct (dict_getitem _ _); [|by eexists].
    by apply IH.
Qed.

End RetrievalProofs.

Section SearchProofs.
Context {E : Env}.

Lemma filter_all {A : Type} (P : A -> Prop) `{!forall x, Decision (P x)}
    (l : list A) :
  Forall P l -> filter P l = l.
Proof.
  induction 1 as [|x l Hx Hl IH]; [done|].
  by rewrite filter_cons_True, IH.
Qed.

Lemma insert_hit_perm (h : hit) (ranking : list hit) :
  insert_hit h ranking ≡ₚ h :: ranking.
Proof.
  induction ranking as [|h' rest IH]; simpl; [done|].
  destruct (hit_below h' h); [done|].
  rewrite IH. apply Permutation_swap.
Qed.

Lemma insert_hit_length (h : hit) (ranking : list hit) :
  length (insert_hit h ranking) = S (length ranking).
Proof. by rewrite insert_hit_perm. Qed.

(** The heap after one more vector: a part of what it held plus the
    vector, and full once [k] vectors have been offered. *)
Lemma offer_submseteq (k : nat) (h : hit) (heap : list hit) :
  offer k h heap ⊆+ h :: heap.
Proof.
  unfold offer. destruct (length heap <? k).
  - by rewrite insert_hit_perm.
  - destruct (last heap) as [lowest|] eqn:Hlast; [|by apply submseteq_cons].
    apply last_Some in Hlast as [l' ->].
    destruct (score_lt (snd lowest) (snd h)); [|by apply submseteq_cons].
    rewrite removelast_last, insert_hit_perm.
    apply submseteq_skip, sublist_submseteq, sublist_inserts_r. done.
Qed.

Lemma offer_length (k : nat) (h : hit) (heap : list hit) :
  length heap <= k ->
  length (offer k h heap) = Nat.min k (S (length heap)).
Proof.
  intros Hle. unfold offer. destruct (length heap <? k) eqn:Hlt.
  - apply Nat.ltb_lt in Hlt. rewrite insert_hit_length. lia.
  - apply Nat.ltb_ge in Hlt.
    destruct (last heap) as [lowest|] eqn:Hlast.
    + apply last_Some in Hlast as [l' ->].
      rewrite length_app in *. simpl in *.
      destruct (score_lt (snd lowest) (snd h)).
      * rewrite removelast_last, insert_hit_length. lia.
      * rewrite length_app. simpl. lia.
    + apply last_None in Hlast as ->. simpl in *. lia.
Qed.

Lemma heap_length (k : nat) (hits : list hit) :
  forall heap,
  length heap <= k ->
  length (foldl (fun heap h => offer k h heap) heap hits) =
  Nat.min k (length heap + length hits).
Proof.
  induction hits as [|h hits IH]; intros heap Hle; simpl; [lia|].
  rewrite IH by (rewrite offer_length by done; lia).
  rewrite offer_length by done. lia.
Qed.

Lemma heap_submseteq (k : nat) (hits : list hit) :
  forall heap,
  foldl (fun heap h => offer k h heap) heap hits ⊆+ heap ++ hits.
Proof.
  induction hits as [|h hits IH]; intros heap; simpl.
  - by rewrite app_nil_r.
  - etrans; [apply IH|].
    etrans; [apply submseteq_app; [apply offer_submseteq|done]|].
    by rewrite <- Permutation_middle.
Qed.

Lemma top_hits_submseteq (idx : IndexFlatIP E) (q : list (float E)) (k : nat) :
  top_hits idx q k ⊆+ scored q (xb idx).
Proof. apply (heap_submseteq k (scored q (xb idx)) []). Qed.

Lemma scored_lookup (q : list (float E)) (vectors : list (list (float E)))
    (x : hit) :
  x ∈ scored q vectors <->
  exists i v, vectors !! i = Some v /\ x = (Z.of_nat i, inner_product q v).
Proof.
  unfold scored. rewrite list_elem_of_lookup. split.
  - intros [i Hi]. rewrite list_lookup_imap in Hi.
    destruct (vectors !! i) as [v|] eqn:Hv; [|done].
    simpl in Hi. simplify_eq. eauto.
  - intros (i & v & Hv & ->). exists i. by rewrite list_lookup_imap, Hv.
Qed.

Lemma top_hits_length (idx : IndexFlatIP E) (q : list (float E)) (k : nat) :
  length (top_hits idx q k) = Nat.min k (ntotal idx).
Proof.
  unfold top_hits, ntotal. rewrite heap_length by (simpl; lia).
  unfold scored. by rewrite length_imap.
Qed.

Lemma top_hits_handles (idx : IndexFlatIP E) (q : list (float E)) (k : nat)
    (h : hit) :
  h ∈ top_hits idx q k ->
  exists i v, xb idx !! i = Some v /\ h = (Z.of_nat i, inner_product q v).
Proof.
  intros Hin. apply scored_lookup.
  eapply elem_of_submseteq; [exact Hin|apply top_hits_submseteq].
Qed.

Lemma filter_top_hits (idx : IndexFlatIP E) (q : list (float E)) (k : nat) :
  filter (fun h : hit => (0 <= fst h)%Z) (top_hits idx q k) = top_hits idx q k.
Proof.
  apply filter_all, Forall_forall. intros h Hin.
  apply top_hits_handles in Hin as (i & v & _ & ->). simpl. lia.
Qed.

Lemma filter_sentinels (n : nat) :
  filter (fun h : hit => (0 <= fst h)%Z) (replicate n (sentinel (E:=E))) = [].
Proof.
  induction n as [|n IH]; simpl; [done|].
  rewrite filter_cons, decide_False by (simpl; lia). done.
Qed.

(** The rows [search] returns, zipped back into hits. *)
Lemma search_rows (idx : IndexFlatIP E) (q : list (float E)) (k : nat)
    (distances : list (float E)) (indices : list Z) :
  search idx q k = Return (distances, indices) ->
  length q = d idx /\
  zip indices distances =
    top_hits idx q k ++ replicate (k - length (top_hits idx q k)) sentinel.
Proof.
  unfold search. destruct (length q =? d idx) eqn:Hd; [|done].
  intros Hret. simplify_eq. split; [by apply Nat.eqb_eq|].
  apply zip_fst_snd.
Qed.

Lemma scored_handles_increase (q : list (float E))
    (vectors : list (list (float E))) (start : nat) :
  StronglySorted (fun a b : hit => (fst a < fst b)%Z)
    (imap (fun i v => (Z.of_nat (start + i), inner_product q v)) vectors).
Proof.
  revert start. induction vectors as [|v vectors IH]; intros start; simpl.
  - constructor.
  - constructor.
    + rewrite (imap_ext _ (fun i v => (Z.of_nat (S start + i), inner_product q v))).
      * apply IH.
      * intros i x _. simpl. f_equal. lia.
    + apply Forall_forall. intros x Hx.
      apply list_elem_of_lookup in Hx as [i Hi].
      rewrite list_lookup_imap in Hi.
      destruct (vectors !! i); [|done]. simpl in Hi. simplify_eq. simpl. lia.
Qed.

Lemma scored_handles_NoDup (q : list (float E)) (vectors : list (list (float E))) :
  NoDup (map fst (scored q vectors)).
Proof.
  pose proof (scored_handles_increase q vectors 0) as Hs.
  change (imap _ vectors) with (scored q vectors) in Hs.
  induction Hs as [|h l Hs IH Hall]; simpl; [constructor|].
  constructor; [|done].
  intros Hin. apply list_elem_of_In, in_map_iff in Hin as (h' & Heq & Hin).
  apply list_elem_of_In in Hin.
  pose proof (proj1 (Forall_forall _ _) Hall h' Hin). simpl in *. lia.
Qed.

Lemma top_hits_handles_NoDup (idx : IndexFlatIP E) (q : list (float E))
    (k : nat) :
  NoDup (map fst (top_hits idx q k)).
Proof.
  pose proof (fmap_submseteq fst _ _ (top_hits_submseteq idx q k)) as Hsub.
  apply submseteq_Permutation in Hsub as [rest Hperm].
  pose proof (scored_handles_NoDup q (xb idx)) as Hnd.
  change (NoDup (fst <$> scored q (xb idx))) in Hnd.
  rewrite Hperm in Hnd. by apply NoDup_app in Hnd as [Hnd _].
Qed.

Section Ordered.
Hypothesis fle_total : forall a b : float E, fle E a b = true \/ fle E b a = true.
Hypothesis fle_trans :
  forall a b c : float E, fle E a b = true -> fle E b c = true -> fle E a c = true.







End Ordered.
End SearchProofs.

Section RespondProofs.
Context {E : Env}.

Lemma keeps_ret {A : Type} (a : A) : keeps_kb (mret a : M E A).
Proof. by intros w. Qed.

Lemma keeps_bind {A B : Type} (m : M E A) (k : A -> M E B) :
  keeps_kb m -> (forall a, keeps_kb (k a)) -> keeps_kb (m ≫= k).
Proof.
  intros Hm Hk w. unfold mbind, M_bind. specialize (Hm w).
  destruct (m w) as [[a|e] w']; simpl in *; [|done].
  by rewrite Hk.
Qed.

Lemma keeps_lift {A : Type} (o : outcome A) : keeps_kb (lift o : M E A).
Proof. by intros w. Qed.

Lemma keeps_emit (ev : event) : keeps_kb (emit (E:=E) ev).
Proof. by intros w. Qed.

Lemma keeps_get_self : keeps_kb (get_self (E:=E)).
Proof. by intros w. Qed.

Lemma keeps_super_respond (user_input : string) :
  keeps_kb (super_respond (E:=E) user_input).
Proof.
  intros w. unfold super_respond.
  by destruct (base_respond E user_input (base (self w))).
Qed.

Lemma keeps_retrieve (query : string) (top_k : nat) :
  keeps_kb (_retrieve_relevant_info (E:=E) query top_k).
Proof.
  intros w. rewrite retrieve_run.
  destruct (bert E query) as [qv|e]; [|done].
  destruct (search _ qv top_k) as [[distances indices]|e]; [|done].
  by destruct (resolve_hits _ _ _).
Qed.

Lemma keeps_render (retrieved : list result) :
  keeps_kb (render_retrieved (E:=E) retrieved).
Proof.
  induction retrieved as [|[[pid score] data] rest IH]; simpl.
  - apply keeps_ret.
  - apply keeps_bind; [apply keeps_lift|]. intros context.
    apply keeps_bind; [apply IH|]. intros parts. apply keeps_ret.
Qed.

Create HintDb keeps discriminated.
#[local] Hint Resolve keeps_ret keeps_lift keeps_emit keeps_get_self
  keeps_super_respond keeps_retrieve keeps_render : keeps.

Lemma keeps_respond (user_input : string) :
  keeps_kb (respond (E:=E) user_input).
Proof.
  unfold respond.
  apply keeps_bind; [auto with keeps|]. intros parent_response.
  apply keeps_bind; [auto with keeps|]. intros s.
  destruct (is_greeting _ || negb _); [auto with keeps|].
  apply keeps_bind; [auto with keeps|]. intros retrieved.
  apply keeps_bind; [auto with keeps|]. intros parts.
  apply keeps_bind; [auto with keeps|]. intros s'.
  apply keeps_bind.
  { destruct (current_problem E (base s') && problem_data E (base s'));
      [|auto with keeps].
    apply keeps_bind; [auto with keeps|]. intros; auto with keeps. }
  intros current_context.
  apply keeps_bind; [auto with keeps|]. intros system_message.
  apply keeps_bind; [auto with keeps|]. intros; auto with keeps.
Qed.

(** C10. A retrieval and a call to [respond] leave the identifier
    sequence, the identifier-to-document map and the index as they were,
    from any state. *)
Theorem C10_knowledge_base_read_only (w : world E) (query user_input : string)
    (top_k : nat) :
  knowledge_base (snd (_retrieve_relevant_info query top_k w)) = knowledge_base w /\
  knowledge_base (snd (respond user_input w)) = knowledge_base w.
Proof. split; [apply keeps_retrieve|apply keeps_respond]. Qed.


End RespondProofs.

Section RetrievalClaims.
Context {E : Env}.


(** What a retrieval returns when embedding, search and resolution all go
    through: one result per top hit. *)
Lemma retrieve_results (w : world E) (query : string) (top_k : nat)
    (results : list result) :
  fst (_retrieve_relevant_info query top_k w) = Return results ->
  results = [] \/
  exists query_embedding,
    bert E query = Return query_embedding /\
    Forall2 (resolves (self w))
      (top_hits (index (self w)) query_embedding top_k) results.
Proof.
  rewrite retrieve_run.
  destruct (bert E query) as [qv|e]; [|simpl; intros; simplify_eq; by left].
  destruct (search _ qv top_k) as [[distances indices]|e] eqn:Hsearch;
    [|simpl; intros; simplify_eq; by left].
  apply search_rows in Hsearch as [_ Hzip].
  destruct (resolve_hits _ _ _) as [rs|e] eqn:Hres;
    [|simpl; intros; simplify_eq; by left].
  simpl. intros ?; simplify_eq. right. exists qv. split; [done|].
  apply resolve_hits_spec in Hres as (new & -> & Hnew).
  rewrite Hzip, filter_app, filter_top_hits, filter_sentinels, app_nil_r in Hnew.
  done.
Qed.


(** C5. A retrieval returns at most [min k n] results, [n] the number
    of vectors in the index; over a listing without documents the build
    completes, leaves the index empty without calling [add], and from
    any state with that knowledge base every retrieval returns the empty
    sequence. *)
Theorem C5_result_bound (listing : list string) (w : world E) (query : string)
    (top_k : nat) :
  (exists results,
      fst (_retrieve_relevant_info query top_k w) = Return results /\
      length results <= Nat.min top_k (ntotal (index (self w)))) /\
  (documents listing = [] ->
   fst (__init__ listing) = Return tt /\
   knowledge_base (snd (__init__ listing)) = knowledge_base fresh /\
   ntotal (index (self (snd (__init__ listing)))) = 0 /\
   trace (snd (__init__ listing)) =
     [Print "Building knowledge base...";
      Print "Knowledge base built with 0 problems"] /\
   (knowledge_base w = knowledge_base (snd (__init__ listing)) ->
    fst (_retrieve_relevant_info query top_k w) = Return [])).
Proof.
  assert (Hbound : forall results,
             fst (_retrieve_relevant_info query top_k w) = Return results ->
             length results <= Nat.min top_k (ntotal (index (self w)))).
  { intros results Hres.
    destruct (retrieve_results _ _ _ _ Hres) as [->|(qv & _ & HF)];
      [simpl; lia|].
    apply Forall2_length in HF. rewrite <- HF, top_hits_length. done. }
  split.
  - destruct (retrieve_returns query top_k w) as [results Hres]. eauto.
  - intros Hempty. unfold __init__. rewrite build_run, Hempty. simpl.
    repeat split.
    intros Hkb. destruct (retrieve_returns query top_k w) as [results Hres].
    rewrite Hres. f_equal. apply Hbound in Hres.
    assert (Hidx : index (self w) = {| d := DIM; xb := [] |})
      by (unfold knowledge_base in Hkb; simpl in Hkb; congruence).
    rewrite Hidx in Hres. unfold ntotal in Hres. simpl in Hres.
    destruct results; [done|]. simpl in Hres. lia.
Qed.

(** C7. In a knowledge base whose only document is D, under "p1", a
    query that embeds to the index's dimension retrieves with k = 3
    exactly the one result ("p1", score, D): the two padding slots are
    skipped and nothing is read at the handle -1. *)
Theorem C7_single_document (w : world E) (query : string) (D : problem)
    (stored query_embedding : list (float E)) :
  problem_ids (self w) = ["p1"] ->
  problem_data_map (self w) = {[ "p1" := D ]} ->
  xb (index (self w)) = [stored] ->
  bert E query = Return query_embedding ->
  length query_embedding = d (index (self w)) ->
  _retrieve_relevant_info query 3 w =
  (Return [("p1", inner_product query_embedding stored, D)],
   add_events w [Embed query; IndexSearch 3]).
Proof.
  intros Hids Hmap Hxb Hbert Hdim.
  rewrite retrieve_run, Hbert. unfold search, top_hits.
  rewrite Hdim, Nat.eqb_refl, Hxb. simpl.
  rewrite Hids, Hmap. simpl.
  unfold dict_getitem. rewrite lookup_singleton_eq. reflexivity.
Qed.

(** C8. A failure of the query embedding or of the index search is
    caught inside the retrieval: the result is the empty sequence, one
    diagnostic line is printed, and no retrieval raises. *)
Theorem C8_query_failures_caught (w : world E) (query : string) (top_k : nat) :
  (forall e,
      bert E query = Raise e ->
      _retrieve_relevant_info query top_k w =
      (Return [],
       add_events w [Embed query; Print ("Retrieval error: " +:+ str e)])) /\
  (forall query_embedding e,
      bert E query = Return query_embedding ->
      search (index (self w)) query_embedding top_k = Raise e ->
      _retrieve_relevant_info query top_k w =
      (Return [],
       add_events w [Embed query; IndexSearch top_k;
                     Print ("Retrieval error: " +:+ str e)])) /\
  (exists results, fst (_retrieve_relevant_info query top_k w) = Return results).
Proof.
  split; [|split].
  - intros e Hbert. by rewrite retrieve_run, Hbert.
  - intros qv e Hbert Hsearch. by rewrite retrieve_run, Hbert, Hsearch.
  - apply retrieve_returns.
Qed.

(** C2 (amended). When a hit of the search carries a handle at or past
    the end of the identifier sequence, the lookup raises inside the
    retrieval's [try] block and is handled like every other query-time
    failure: a "Retrieval error" line is printed and the retrieval
    returns the empty sequence. *)
Theorem C2_unresolved_handle_is_absorbed (w : world E) (query : string)
    (top_k : nat) (query_embedding distances : list (float E))
    (indices : list Z) :
  bert E query = Return query_embedding ->
  search (index (self w)) query_embedding top_k = Return (distances, indices) ->
  (exists h, h ∈ zip indices distances /\
             (Z.of_nat (length (problem_ids (self w))) <= fst h)%Z) ->
  exists e,
    _retrieve_relevant_info query top_k w =
    (Return [],
     add_events w [Embed query; IndexSearch top_k;
                   Print ("Retrieval error: " +:+ str e)]).
Proof.
  intros Hbert Hsearch Hbad.
  rewrite retrieve_run, Hbert, Hsearch.
  destruct (resolve_hits_out_of_range (self w) _ Hbad []) as [e ->].
  by exists e.
Qed.

(** C6. A dictionary is rendered as the five fields in the order title,
    statement, input, output, solution, each under its label, joined by
    newlines: with the five fields present as strings, the text is the
    labels and the field values in that order, and in general it is the
    rendering worded in the design document (a missing field shows as
    the empty string).  During construction the embedding model is handed
    these renderings and nothing else, and during a retrieval it is
    handed the query string as it is. *)
Theorem C6_contexts_canonical_queries_raw (listing : list string) (w : world E)
    (query : string) (top_k : nat) :
  (forall fields title statement input output solution,
      fields !! "title" = Some (FStr title) ->
      fields !! "statement" = Some (FStr statement) ->
      fields !! "input" = Some (FStr input) ->
      fields !! "output" = Some (FStr output) ->
      fields !! "solution" = Some (FStr solution) ->
      _create_problem_context (Dict fields) =
      Return ("Title: " +:+ title +:+ PyStr.nl +:+
              "Statement: " +:+ statement +:+ PyStr.nl +:+
              "Input: " +:+ input +:+ PyStr.nl +:+
              "Output: " +:+ output +:+ PyStr.nl +:+
              "Solution: " +:+ solution)) /\
  (forall fields,
      _create_problem_context (Dict fields) = Return (canonical_context fields)) /\
  embedded (trace (snd (__init__ listing))) =
    omap context_of (documents listing) /\
  (forall id context,
      context_of id = Some context ->
      exists fields,
        load_problem E id = Return (Dict fields) /\
        context = canonical_context fields) /\
  embedded (trace (snd (_retrieve_relevant_info query top_k w))) =
    embedded (trace w) ++ [query].
Proof.
  assert (Hcanon : forall fields,
             _create_problem_context (Dict fields)
             = Return (canonical_context fields)).
  { intros fields. unfold _create_problem_context, canonical_context,
      format_get, field_order. simpl.
    destruct (fields !! "title") as [[t|]|];
      destruct (fields !! "statement") as [[s|]|];
      destruct (fields !! "input") as [[i|]|];
      destruct (fields !! "output") as [[o|]|];
      destruct (fields !! "solution") as [[sol|]|]; reflexivity. }
  split; [|split; [|split; [|split]]].
  - intros fields title statement input output solution Ht Hs Hi Ho Hsol.
    unfold _create_problem_context, format_get.
    by rewrite Ht, Hs, Hi, Ho, Hsol.
  - exact Hcanon.
  - apply build_embeds_contexts.
  - intros id context. unfold context_of.
    destruct (load_problem E id) as [[fields|ty]|e]; [|done..].
    rewrite Hcanon. intros ?; simplify_eq. by exists fields.
  - rewrite retrieve_run.
    destruct (bert E query) as [qv|e];
      [|simpl; by rewrite embedded_app].
    destruct (search _ qv top_k) as [[distances indices]|e];
      [|simpl; by rewrite embedded_app].
    destruct (resolve_hits _ _ _); simpl; by rewrite embedded_app.
Qed.

End RetrievalClaims.

(** * The stub environment at work *)

Module Checks.
Import PyStr OsPath Stub.

Lemma stub_bert_dim (text : string) (v : list Z) :
  stub_bert text = Return v -> length v = DIM.
Proof.
  unfold stub_bert. destruct (contains "boom" text); [done|].
  intros ?; simplify_eq. reflexivity.
Qed.



Example splitext_plain : splitext "two_sum.json" = ("two_sum", ".json").
Proof. reflexivity. Qed.

Example splitext_two_dots : splitext "a.b.json" = ("a.b", ".json").
Proof. reflexivity. Qed.

Example splitext_hidden : splitext ".json" = (".json", EmptyString).
Proof. reflexivity. Qed.

Example splitext_hidden_json : splitext ".json.json" = (".json", ".json").
Proof. reflexivity. Qed.

Example endswith_upper : endswith "two_sum.JSON" ".json" = false.
Proof. reflexivity. Qed.

Example which_is_greeting : is_greeting (E:=env1) "Which one?" = true.
Proof. reflexivity. Qed.

Example they_is_greeting : is_greeting (E:=env1) "They said so" = true.
Proof. reflexivity. Qed.

Example explain_is_not_greeting : is_greeting (E:=env1) "Explain DP" = false.
Proof. reflexivity. Qed.

(** Python reads [l[-1]] as the last element: the guard [idx >= 0] is
    what keeps the padding slots out of the results. *)
Example getitem_minus_one : list_getitem ["p1"] (-1) = Return "p1".
Proof. reflexivity. Qed.

(** A ranking with fixed vectors: best first, the two equal scores with
    the higher handle first, one padding slot. *)
Example ranking_scenario :
  search (@Build_IndexFlatIP env1 1 [[1]; [5]; [5]; [2]]%Z) [3%Z] 5 =
  Return ([15; 15; 6; 3; -1000000]%Z, [2; 1; 3; 0; -1]%Z).
Proof. reflexivity. Qed.

(** With more equal scores than places, the lower handles are the ones
    kept: a later vector enters a full heap only on a strictly higher
    score. *)
Example ties_beyond_k :
  search (@Build_IndexFlatIP env1 1 [[5]; [5]; [5]; [5]]%Z) [3%Z] 2 =
  Return ([15; 15]%Z, [1; 0]%Z).
Proof. reflexivity. Qed.

Lemma C1_witness :
  (forall text v, bert env text = Return v -> length v = DIM) /\
  exists w : world env,
    __init__ mixed_listing = (Return tt, w) /\
    ntotal (index (self w)) = 5 - 3 /\
    length (problem_ids (self w)) = 5 - 3 /\
    printed (trace w) =
      ["Building knowledge base...";
       "Error loading problem missing: No such file or directory";
       "Error loading problem array: 'list' object has no attribute 'get'";
       "Error loading problem boom: out of memory";
       "Knowledge base built with 2 problems"].
Proof.
  split; [exact stub_bert_dim|].
  exact (C1_build_survives_failures (E:=env) mixed_listing stub_bert_dim).
Defined.

Lemma C3_counterexample :
  NoDup same_stem_listing /\
  fst (__init__ (E:=env) same_stem_listing) = Return tt /\
  ".json" ∈ documents same_stem_listing /\
  (exists pv, ingest (E:=env) ".json" = Return pv) /\
  problem_ids (self (snd (__init__ (E:=env) same_stem_listing)))
    = [".json"; ".json"] /\
  ~ (exists i,
        problem_ids (self (snd (__init__ (E:=env) same_stem_listing))) !! i
          = Some ".json" /\
        forall j,
          problem_ids (self (snd (__init__ (E:=env) same_stem_listing))) !! j
            = Some ".json" -> j = i).
Proof.
  assert (Hids : problem_ids (self (snd (__init__ (E:=env) same_stem_listing)))
                 = [".json"; ".json"]) by (vm_compute; reflexivity).
  split; [|split; [|split; [|split; [|split]]]].
  - apply (bool_decide_unpack _). vm_compute. exact I.
  - vm_compute. reflexivity.
  - apply (bool_decide_unpack _). vm_compute. exact I.
  - eexists. vm_compute. reflexivity.
  - exact Hids.
  - rewrite Hids. intros (i & _ & Huniq).
    pose proof (Huniq 0 eq_refl). pose proof (Huniq 1 eq_refl). lia.
Qed.

Lemma C3_witness :
  (forall text v, bert env text = Return v -> length v = DIM) /\
  NoDup (documents mixed_listing) /\
  "bfs" ∈ documents mixed_listing /\
  (exists pv, ingest (E:=env) "bfs" = Return pv) /\
  exists w : world env,
    __init__ mixed_listing = (Return tt, w) /\
    length (problem_ids (self w)) = ntotal (index (self w)) /\
    ntotal (index (self w)) = 2 /\
    exists i,
      problem_ids (self w) !! i = Some "bfs" /\
      forall j, problem_ids (self w) !! j = Some "bfs" -> j = i.
Proof.
  assert (Hnd : NoDup (documents mixed_listing))
    by (apply (bool_decide_unpack _); vm_compute; exact I).
  assert (Hin : "bfs" ∈ documents mixed_listing)
    by (apply (bool_decide_unpack _); vm_compute; exact I).
  assert (Hsome : exists pv, ingest (E:=env) "bfs" = Return pv)
    by (eexists; vm_compute; reflexivity).
  split; [exact stub_bert_dim|]. split; [exact Hnd|]. split; [exact Hin|].
  split; [exact Hsome|]. destruct Hsome as [pv Hing].
  destruct (C3_parallel_sequences (E:=env) mixed_listing stub_bert_dim)
    as (w & Hrun & Hlen & Hn & _ & Honce).
  exists w. split; [exact Hrun|]. split; [exact Hlen|]. split; [exact Hn|].
  exact (Honce Hnd "bfs" _ Hin Hing).
Defined.



Lemma C5_witness :
  documents ["notes.txt"] = [] /\
  fst (__init__ (E:=env) ["notes.txt"]) = Return tt /\
  ntotal (index (self (snd (__init__ (E:=env) ["notes.txt"])))) = 0 /\
  fst (_retrieve_relevant_info "shortest path" 3
         (snd (__init__ (E:=env) ["notes.txt"]))) = Return [].
Proof.
  split; [reflexivity|].
  destruct (proj2 (C5_result_bound (E:=env) ["notes.txt"]
                     (snd (__init__ (E:=env) ["notes.txt"]))
                     "shortest path" 3) eq_refl)
    as (Hrun & _ & Hn & _ & Hret).
  split; [exact Hrun|]. split; [exact Hn|]. exact (Hret eq_refl).
Defined.

Lemma C7_witness :
  problem_ids (self one_doc) = ["p1"] /\
  problem_data_map (self one_doc) = {[ "p1" := p1_doc ]} /\
  xb (index (self one_doc)) = [[2%Z]] /\
  bert env1 "unrelated query" = Return [15%Z] /\
  length [15%Z] = d (index (self one_doc)) /\
  _retrieve_relevant_info (E:=env1) "unrelated query" 3 one_doc =
  (Return [("p1", 30%Z, p1_doc)],
   add_events one_doc [Embed "unrelated query"; IndexSearch 3]).
Proof.
  repeat (split; [reflexivity|]).
  exact (C7_single_document (E:=env1) one_doc "unrelated query" p1_doc
           [2%Z] [15%Z] eq_refl eq_refl eq_refl eq_refl eq_refl).
Defined.

Lemma C8_witness :
  bert env "boom" = Raise (ExternalError "out of memory") /\
  _retrieve_relevant_info (E:=env) "boom" 3 fresh =
  (Return [],
   add_events fresh [Embed "boom"; Print "Retrieval error: out of memory"]) /\
  bert env1 "abc" = Return [3%Z] /\
  search (index (self (fresh (E:=env1)))) [3%Z] 3 = Raise AssertionError /\
  _retrieve_relevant_info (E:=env1) "abc" 3 fresh =
  (Return [],
   add_events fresh [Embed "abc"; IndexSearch 3; Print "Retrieval error: "]).
Proof.
  split; [reflexivity|]. split.
  - exact (proj1 (C8_query_failures_caught (E:=env) fresh "boom" 3)
             (ExternalError "out of memory") eq_refl).
  - split; [reflexivity|]. split; [reflexivity|].
    exact (proj1 (proj2 (C8_query_failures_caught (E:=env1) fresh "abc" 3))
             [3%Z] AssertionError eq_refl eq_refl).
Defined.

Lemma C2_counterexample :
  bert env1 "abc" = Return [3%Z] /\
  search (index (self orphan_vector)) [3%Z] 3 =
    Return ([6; -1000000; -1000000]%Z, [0; -1; -1]%Z) /\
  list_getitem (problem_ids (self orphan_vector)) 0 = Raise IndexError /\
  _retrieve_relevant_info (E:=env1) "abc" 3 orphan_vector =
  (Return [],
   add_events orphan_vector
     [Embed "abc"; IndexSearch 3;
      Print "Retrieval error: list index out of range"]).
Proof. repeat split. Qed.

Lemma C2_witness :
  bert env1 "abc" = Return [3%Z] /\
  search (index (self orphan_vector)) [3%Z] 3 =
    Return ([6; -1000000; -1000000]%Z, [0; -1; -1]%Z) /\
  (exists h : Z * Z,
      h ∈ zip [0; -1; -1]%Z [6; -1000000; -1000000]%Z /\
      (Z.of_nat (length (problem_ids (self orphan_vector))) <= fst h)%Z) /\
  exists e,
    _retrieve_relevant_info (E:=env1) "abc" 3 orphan_vector =
    (Return [],
     add_events orphan_vector
       [Embed "abc"; IndexSearch 3;
        Print ("Retrieval error: " +:+ str (E:=env1) e)]).
Proof.
  assert (Hbad : exists h : Z * Z,
             h ∈ zip [0; -1; -1]%Z [6; -1000000; -1000000]%Z /\
             (Z.of_nat (length (problem_ids (self orphan_vector))) <= fst h)%Z).
  { exists (0%Z, 6%Z). split; [apply list_elem_of_here|simpl; lia]. }
  split; [reflexivity|]. split; [reflexivity|]. split; [exact Hbad|].
  exact (C2_unresolved_handle_is_absorbed (E:=env1) orphan_vector "abc" 3
           [3%Z] [6; -1000000; -1000000]%Z [0; -1; -1]%Z eq_refl eq_refl Hbad).
Defined.

Lemma C6_witness :
  _create_problem_context (Dict two_sum_fields) =
  Return ("Title: Two Sum" +:+ nl +:+
          "Statement: find a pair summing to target" +:+ nl +:+
          "Input: n, then n integers" +:+ nl +:+
          "Output: two indices" +:+ nl +:+
          "Solution: hash map") /\
  context_of (E:=env) "bfs" =
    Some ("Title: bfs" +:+ nl +:+ "Statement: " +:+ nl +:+ "Input: " +:+ nl
          +:+ "Output: " +:+ nl +:+ "Solution: ") /\
  exists fields,
    load_problem env "bfs" = Return (Dict fields) /\
    "Title: bfs" +:+ nl +:+ "Statement: " +:+ nl +:+ "Input: " +:+ nl
      +:+ "Output: " +:+ nl +:+ "Solution: " = canonical_context fields.
Proof.
  split.
  - apply (proj1 (C6_contexts_canonical_queries_raw (E:=env) [] fresh "q" 3)
             two_sum_fields "Two Sum" "find a pair summing to target"
             "n, then n integers" "two indices" "hash map");
      vm_compute; reflexivity.
  - split; [reflexivity|].
    exact (proj1 (proj2 (proj2 (proj2
             (C6_contexts_canonical_queries_raw (E:=env) [] fresh "q" 3))))
             "bfs" _ eq_refl).
Defined.



(** An input that is no greeting, with a current problem: the retrieval
    and the generation call take place. *)
Example explain_is_augmented :
  fst (respond (E:=env1) "  explain  " one_doc) = Return "generated" /\
  map (fun ev => match ev with
                 | Generate _ => "generate"
                 | Embed _ => "embed"
                 | IndexSearch _ => "search"
                 | _ => "other"
                 end)
      (trace (snd (respond (E:=env1) "  explain  " one_doc)))
  = ["embed"; "search"; "generate"].
Proof. split; reflexivity. Qed.

End Checks.

(** * Further properties of the build, the retrieval and [respond] *)

Section RespondRuns.
Context {E : Env}.

Lemma render_retrieved_run (retrieved : list result) (w : world E) :
  render_retrieved retrieved w = (render_parts retrieved, w).
Proof.
  revert w. induction retrieved as [|[[pid score] data] rest IH]; intros w;
    simpl; [done|].
  run. destruct (_create_problem_context data) as [context|e]; simpl; [|done].
  rewrite IH. by destruct (render_parts rest).
Qed.

Lemma retrieve_keeps_self (query : string) (top_k : nat) (w : world E) :
  self (snd (_retrieve_relevant_info query top_k w)) = self w.
Proof.
  rewrite retrieve_run.
  destruct (bert E query) as [qv|e]; [|done].
  destruct (search _ qv top_k) as [[distances indices]|e]; [|done].
  by destruct (resolve_hits _ _ _).
Qed.

Lemma add_events_nil (w : world E) : add_events w [] = w.
Proof. destruct w. unfold add_events. simpl. by rewrite app_nil_r. Qed.

(** [respond] on the augmented path. *)
Lemma respond_augmented_run (user_input : string) (w : world E)
    (r : string) (b : base_state E) :
  base_respond E (py_strip E user_input) (base (self w)) = (Return r, b) ->
  is_greeting (py_strip E user_input) = false ->
  current_problem E b = true ->
  exists retrieved w1,
    _retrieve_relevant_info (py_strip E user_input) 3 (with_base b w)
      = (Return retrieved, w1) /\
    respond user_input w =
      (fst (augmented (py_strip E user_input) b retrieved),
       add_events w1 (snd (augmented (py_strip E user_input) b retrieved))).
Proof.
  intros Hbase Hgreet Hcp.
  destruct (retrieve_returns (py_strip E user_input) 3 (with_base b w))
    as [retrieved Hret].
  pose proof (retrieve_keeps_self (py_strip E user_input) 3 (with_base b w))
    as Hself.
  destruct (_retrieve_relevant_info (py_strip E user_input) 3 (with_base b w))
    as [o w1] eqn:Hrun.
  simpl in Hret, Hself. subst o.
  exists retrieved, w1. split; [done|].
  unfold respond. unfold mbind at 1, M_bind at 1.
  unfold super_respond at 1. rewrite Hbase.
  unfold mbind at 1, M_bind at 1. unfold get_self at 1.
  cbn [self base]. rewrite Hgreet, Hcp. cbn [negb orb].
  unfold mbind at 1, M_bind at 1.
  fold (with_base b w). rewrite Hrun.
  unfold mbind at 1, M_bind at 1. rewrite render_retrieved_run.
  unfold augmented. destruct (render_parts retrieved) as [parts|e];
    [|simpl; by rewrite add_events_nil].
  unfold mbind at 1, M_bind at 1. unfold get_self at 1.
  rewrite Hself. cbn [self base with_base].
  unfold current_context_of.
  destruct (current_problem E b && problem_data E b).
  - unfold mbind at 1, M_bind at 1. unfold mbind at 1, M_bind at 1.
    unfold lift at 1.
    destruct (_build_context E b) as [context|e];
      [|simpl; by rewrite add_events_nil].
    unfold mret at 1, M_ret at 1.
    unfold mbind at 1, M_bind at 1. unfold lift at 1.
    destruct (_build_system_message E b) as [sm|e];
      [|simpl; by rewrite add_events_nil].
    reflexivity.
  - unfold mbind at 1, M_bind at 1. unfold mret at 1, M_ret at 1.
    unfold mbind at 1, M_bind at 1. unfold lift at 1.
    destruct (_build_system_message E b) as [sm|e];
      [|simpl; by rewrite add_events_nil].
    reflexivity.
Qed.

End RespondRuns.

Section BuildExtras.
Context {E : Env}.

Lemma documents_json_entries (listing : list string) :
  documents (json_entries listing) = documents listing.
Proof.
  unfold documents, json_entries. f_equal.
  induction listing as [|p_file rest IH]; [done|].
  rewrite filter_cons. destruct (decide (PyStr.endswith p_file ".json" = true)).
  - by rewrite filter_cons_True, IH.
  - done.
Qed.

(** X1. The build depends on the [.json] entries of the listing only:
    every other entry is passed over without a load, a line of output or
    a change of state. *)
Theorem build_ignores_other_entries (listing : list string) (w : world E) :
  _build_knowledge_base listing w =
  _build_knowledge_base (json_entries listing) w.
Proof. by rewrite !build_run, documents_json_entries. Qed.

Lemma build_self (listing : list string) (w : world E) :
  problem_ids (self (snd (_build_knowledge_base listing w))) =
    problem_ids (self w) ++ map fst (built (documents listing)) /\
  problem_data_map (self (snd (_build_knowledge_base listing w))) =
    problem_data_map (ids_after (self w) (documents listing)) /\
  base (self (snd (_build_knowledge_base listing w))) = base (self w).
Proof.
  rewrite build_run.
  pose proof (problem_ids_after (documents listing) (self w)) as Hids.
  destruct (base_index_after (documents listing) (self w)) as [Hbase _].
  destruct (map (fun b => snd (snd b)) (built (documents listing)))
    as [|v vs]; [simpl; by repeat split|].
  destruct (index_add _ _); simpl; by repeat split.
Qed.

Lemma ingest_dict (id : string) (pd : problem) (v : list (float E)) :
  ingest id = Return (pd, v) -> exists fields, pd = Dict fields.
Proof.
  intros Hi. apply ingest_steps in Hi as (ctx & _ & Hctx & _).
  destruct pd as [fields|ty]; [by exists fields|done].
Qed.

(** Where a stored document comes from: it was there before the loop, or
    the loop built it. *)
Lemma lookup_after_inv (ids : list string) (id : string) (pd : problem) :
  forall s : Chatbot E,
  problem_data_map (ids_after s ids) !! id = Some pd ->
  problem_data_map s !! id = Some pd \/
  (id ∈ ids /\ exists v, ingest id = Return (pd, v)).
Proof.
  induction ids as [|a ids IH]; intros s Hl; [by left|].
  change (ids_after s (a :: ids)) with (ids_after (step_self a s) ids) in Hl.
  apply IH in Hl as [Hl|[Hin Hing]].
  - unfold step_self in Hl. destruct (ingest a) as [[pd' v']|e] eqn:Ha;
      [|by left].
    simpl in Hl. destruct (decide (a = id)) as [->|Hne].
    + rewrite lookup_insert_eq in Hl. simplify_eq. right.
      split; [apply list_elem_of_here|by exists v'].
    + rewrite lookup_insert_ne in Hl by done. by left.
  - right. split; [by apply list_elem_of_further|done].
Qed.

(** X2. After construction, whether or not [index.add] went through,
    the document map is keyed by exactly the stored identifiers, and under
    each identifier it holds what [load_problem] returned for it, which is
    a dictionary. *)
Theorem built_map_matches_ids (listing : list string) (id : string) :
  (id ∈ problem_ids (self (snd (__init__ (E:=E) listing))) <->
   is_Some (problem_data_map (self (snd (__init__ (E:=E) listing))) !! id)) /\
  (forall problem_data,
      problem_data_map (self (snd (__init__ (E:=E) listing))) !! id
        = Some problem_data ->
      load_problem E id = Return problem_data /\
      exists fields, problem_data = Dict fields).
Proof.
  unfold __init__.
  destruct (build_self listing fresh) as (Hids & Hmap & _).
  rewrite Hids, Hmap. simpl. split; [split|].
  - intros Hin. apply list_elem_of_In, in_map_iff in Hin as ([id' [pd v]] & <- & Hin).
    apply list_elem_of_In, built_ingest in Hin as [Hin Hing]. simpl.
    exists pd. by apply (lookup_after_built _ _ _ v).
  - intros [pd Hl]. apply lookup_after_inv in Hl as [Hl|[Hin [v Hing]]];
      [done|].
    apply list_elem_of_In, in_map_iff. exists (id, (pd, v)). split; [done|].
    apply list_elem_of_In, built_ingest. done.
  - intros pd Hl. apply lookup_after_inv in Hl as [Hl|[Hin [v Hing]]];
      [done|].
    split; [|by apply ingest_dict in Hing].
    apply ingest_steps in Hing as (ctx & Hload & _). done.
Qed.

Lemma built_ids_sublist (ids : list string) :
  map fst (built (E:=E) ids) `sublist_of` ids.
Proof.
  induction ids as [|id ids IH]; [constructor|].
  unfold built in *. simpl. destruct (ingest id) as [pv|e]; simpl.
  - by constructor.
  - by apply sublist_cons.
Qed.

(** X3. The identifiers are stored in the order of the directory
    listing: after construction the identifier sequence is a subsequence
    of the stems of the listing's [.json] entries. *)
Theorem built_ids_in_listing_order (listing : list string) :
  problem_ids (self (snd (__init__ (E:=E) listing)))
    `sublist_of` documents listing.
Proof.
  unfold __init__. destruct (build_self listing fresh) as (-> & _ & _).
  simpl. apply built_ids_sublist.
Qed.

Lemma consistent_after (ids : list string) (s : Chatbot E) (id : string) :
  (exists fields, problem_data_map s !! id = Some (Dict fields)) ->
  exists fields, problem_data_map (ids_after s ids) !! id = Some (Dict fields).
Proof.
  revert s. induction ids as [|a ids IH]; intros s Hs; [done|].
  change (ids_after s (a :: ids)) with (ids_after (step_self a s) ids).
  apply IH. unfold step_self.
  destruct (ingest a) as [[pd v]|e] eqn:Ha; [|done]. simpl.
  destruct (decide (a = id)) as [->|Hne].
  - rewrite lookup_insert_eq. apply ingest_dict in Ha as [fields ->]. eauto.
  - by rewrite lookup_insert_ne.
Qed.

(** X4. The build extends what is there and keeps the knowledge base
    consistent: from a consistent state whose index has dimension [DIM],
    and with embeddings of that dimension, it returns normally, appends
    the new identifiers and vectors in step, and the state it reaches is
    consistent again.  A second build over the same listing appends every
    document a second time. *)
Theorem build_extends_consistently (listing : list string) (w : world E) :
  (forall text v, bert E text = Return v -> length v = DIM) ->
  d (index (self w)) = DIM ->
  consistent (self w) ->
  exists w' : world E,
    _build_knowledge_base listing w = (Return tt, w') /\
    problem_ids (self w') =
      problem_ids (self w) ++ map fst (built (documents listing)) /\
    xb (index (self w')) =
      xb (index (self w)) ++ map (fun b => snd (snd b)) (built (documents listing)) /\
    d (index (self w')) = DIM /\
    consistent (self w').
Proof.
  intros Hdim Hd [Hlen Hdocs].
  pose proof (build_self listing w) as (Hids & Hmap & _).
  assert (Hcons : forall s' : Chatbot E,
             problem_ids s' =
               problem_ids (self w) ++ map fst (built (documents listing)) ->
             problem_data_map s' =
               problem_data_map (ids_after (self w) (documents listing)) ->
             forall id, id ∈ problem_ids s' ->
                        exists fields, problem_data_map s' !! id = Some (Dict fields)).
  { intros s' -> -> id Hin. apply elem_of_app in Hin as [Hin|Hin].
    - apply consistent_after. by apply Hdocs.
    - apply list_elem_of_In, in_map_iff in Hin as ([id' [pd v]] & <- & Hin).
      apply list_elem_of_In, built_ingest in Hin as [Hin Hing]. simpl.
      destruct (ingest_dict _ _ _ Hing) as [fields ->]. exists fields.
      by apply (lookup_after_built _ _ _ v). }
  revert Hids Hmap. rewrite build_run.
  destruct (base_index_after (documents listing) (self w)) as [_ Hindex].
  destruct (map (fun b => snd (snd b)) (built (documents listing)))
    as [|v vs] eqn:Hemb.
  - simpl. intros Hids Hmap. eexists. split; [reflexivity|]. simpl.
    rewrite Hindex, app_nil_r. repeat split; try done.
    + unfold ntotal. rewrite Hindex, Hids, length_app, length_map.
      rewrite <- (length_map (fun b => snd (snd b))), Hemb. simpl.
      unfold ntotal in Hlen. lia.
    + by apply Hcons.
  - unfold index_add. rewrite Hindex, Hd, <- Hemb, (built_dim _ Hdim).
    simpl. intros Hids Hmap. eexists. split; [reflexivity|]. simpl.
    repeat split; try done.
    + unfold ntotal. simpl. rewrite Hids, !length_app, !length_map.
      unfold ntotal in Hlen. lia.
    + by apply Hcons.
Qed.

End BuildExtras.

Section RetrievalExtras.
Context {E : Env}.

Lemma resolve_hits_ok (s : Chatbot E) (hits : list hit) :
  consistent s ->
  Forall (fun h : hit => (fst h < Z.of_nat (ntotal (index s)))%Z) hits ->
  forall results, exists results', resolve_hits s hits results = Return results'.
Proof.
  intros [Hlen Hdocs]. induction 1 as [|[idx score] rest Hidx Hrest IH];
    intros results; simpl; [by eexists|].
  destruct (0 <=? idx)%Z eqn:Hpos; [|apply IH].
  apply Z.leb_le in Hpos. simpl in Hidx.
  destruct (lookup_lt_is_Some_2 (problem_ids s) (Z.to_nat idx)) as [id Hid];
    [lia|].
  rewrite (proj2 (list_getitem_nonneg _ _ _ Hpos) Hid).
  destruct (Hdocs id) as [fields Hdoc];
    [by apply list_elem_of_lookup_2 in Hid|].
  unfold dict_getitem. rewrite Hdoc. apply IH.
Qed.

Lemma Forall2_right {A B : Type} (P : A -> B -> Prop) (Q : B -> Prop)
    (l : list A) (k : list B) :
  Forall2 P l k -> (forall a b, P a b -> Q b) -> Forall Q k.
Proof. induction 1; intros HPQ; constructor; eauto. Qed.

(** X5. In a consistent state a query that embeds to the index's
    dimension is answered in full: exactly [min k n] results, nothing
    printed, and every result carries a stored identifier together with
    the dictionary stored under it. *)
Theorem retrieval_complete_when_consistent (w : world E) (query : string)
    (top_k : nat) (query_embedding : list (float E)) :
  consistent (self w) ->
  bert E query = Return query_embedding ->
  length query_embedding = d (index (self w)) ->
  exists results,
    _retrieve_relevant_info query top_k w =
      (Return results, add_events w [Embed query; IndexSearch top_k]) /\
    length results = Nat.min top_k (ntotal (index (self w))) /\
    Forall (fun r : result =>
              fst (fst r) ∈ problem_ids (self w) /\
              problem_data_map (self w) !! fst (fst r) = Some (snd r) /\
              exists fields, snd r = Dict fields) results.
Proof.
  intros Hcons Hbert Hdim. rewrite retrieve_run, Hbert.
  destruct (search (index (self w)) query_embedding top_k)
    as [[distances indices]|e] eqn:Hsearch;
    [|unfold search in Hsearch; by rewrite Hdim, Nat.eqb_refl in Hsearch].
  apply search_rows in Hsearch as [_ Hzip]. rewrite Hzip.
  destruct (resolve_hits_ok (self w)
              (top_hits (index (self w)) query_embedding top_k ++
               replicate (top_k - length (top_hits (index (self w))
                                            query_embedding top_k)) sentinel)
              Hcons) with (results := @nil (result (E:=E)))
    as [results Hres].
  { apply Forall_app. split; apply Forall_forall; intros h Hh.
    - apply top_hits_handles in Hh as (i & v & Hv & ->). simpl.
      apply lookup_lt_Some in Hv. unfold ntotal. lia.
    - apply elem_of_replicate in Hh as [-> _]. simpl. lia. }
  rewrite Hres. exists results. split; [done|].
  apply resolve_hits_spec in Hres as (new & -> & Hnew). simpl.
  rewrite filter_app, filter_top_hits, filter_sentinels, app_nil_r in Hnew.
  split.
  - apply Forall2_length in Hnew. by rewrite <- Hnew, top_hits_length.
  - eapply Forall2_right; [exact Hnew|].
    intros h r (Hpos & Hid & _ & Hdoc). destruct Hcons as [_ Hdocs].
    assert (Hin : fst (fst r) ∈ problem_ids (self w))
      by (by apply list_elem_of_lookup_2 in Hid).
    split; [done|]. split; [done|].
    destruct (Hdocs _ Hin) as [fields Hf]. exists fields. congruence.
Qed.

(** A hit whose identifier has no stored document makes the loop raise. *)
Lemma resolve_hits_missing_document (s : Chatbot E) (hits : list (Z * float E)) :
  (exists h id,
      h ∈ hits /\ (0 <= fst h)%Z /\
      problem_ids s !! Z.to_nat (fst h) = Some id /\
      problem_data_map s !! id = None) ->
  forall results, exists e, resolve_hits s hits results = Raise e.
Proof.
  intros (h & id & Hin & Hpos & Hid & Hnone).
  induction hits as [|[idx score] rest IH]; intros results;
    [by apply elem_of_nil in Hin|].
  simpl. apply elem_of_cons in Hin as [->|Hin].
  - simpl in Hpos, Hid. destruct (0 <=? idx)%Z eqn:Hidx;
      [|apply Z.leb_gt in Hidx; lia].
    rewrite (proj2 (list_getitem_nonneg _ _ _ Hpos) Hid).
    unfold dict_getitem. rewrite Hnone. by eexists.
  - destruct (0 <=? idx)%Z; [|by apply IH].
    destruct (list_getitem _ _); [|by eexists].
    destruct (dict_getitem _ _); [|by eexists].
    by apply IH.
Qed.

(** X6. When the identifier at a hit's handle has no entry in the
    document map, the [KeyError] of the lookup is caught like any other
    failure: the results gathered so far are dropped, a "Retrieval error"
    line is printed and the retrieval returns the empty sequence. *)
Theorem missing_document_empties_result (w : world E) (query : string)
    (top_k : nat) (query_embedding distances : list (float E))
    (indices : list Z) :
  bert E query = Return query_embedding ->
  search (index (self w)) query_embedding top_k = Return (distances, indices) ->
  (exists h id,
      h ∈ zip indices distances /\ (0 <= fst h)%Z /\
      problem_ids (self w) !! Z.to_nat (fst h) = Some id /\
      problem_data_map (self w) !! id = None) ->
  exists e,
    _retrieve_relevant_info query top_k w =
    (Return [],
     add_events w [Embed query; IndexSearch top_k;
                   Print ("Retrieval error: " +:+ str e)]).
Proof.
  intros Hbert Hsearch Hbad.
  rewrite retrieve_run, Hbert, Hsearch.
  destruct (resolve_hits_missing_document (self w) _ Hbad []) as [e ->].
  by exists e.
Qed.

(** X7. A retrieval never returns the same position of the identifier
    sequence twice; when the stored identifiers are pairwise distinct, no
    identifier occurs twice among the results. *)
Theorem retrieval_results_distinct (w : world E) (query : string)
    (top_k : nat) (results : list result) :
  NoDup (problem_ids (self w)) ->
  fst (_retrieve_relevant_info query top_k w) = Return results ->
  NoDup (map (fun r : result => fst (fst r)) results).
Proof.
  intros Hnd Hres.
  destruct (retrieve_results _ _ _ _ Hres) as [->|(qv & _ & HF)];
    [simpl; constructor|].
  pose proof (top_hits_handles_NoDup (index (self w)) qv top_k) as Hh.
  clear Hres. revert Hh.
  induction HF as [|h r hits rs Hhr HF IH]; intros Hh; simpl; [constructor|].
  apply NoDup_cons in Hh as [Hnotin Hh]. constructor; [|by apply IH].
  intros Hin. apply Hnotin.
  apply list_elem_of_In, in_map_iff in Hin as (r' & Heq & Hin).
  apply list_elem_of_In, list_elem_of_lookup in Hin as [j Hj].
  destruct (Forall2_lookup_r _ _ _ _ _ HF Hj) as (h' & Hh' & Hres').
  destruct Hhr as (Hpos & Hid & _). destruct Hres' as (Hpos' & Hid' & _).
  rewrite Heq in Hid'.
  pose proof (NoDup_lookup _ _ _ _ Hnd Hid Hid') as Heqn.
  assert (fst h = fst h') as -> by lia.
  apply list_elem_of_In, in_map_iff. exists h'. split; [done|].
  apply list_elem_of_In. by apply list_elem_of_lookup_2 in Hh'.
Qed.

End RetrievalExtras.

Section StringExtras.
Import PyStr OsPath.

Lemma rfind_from_absent (c : ascii) (s : string) :
  forall i best,
  forall_chars (fun a => negb (Ascii.eqb a c)) s = true ->
  rfind_from c s i best = best.
Proof.
  induction s as [|a s IH]; intros i best Hs; [done|].
  simpl in Hs. apply andb_true_iff in Hs as [Ha Hs].
  simpl. apply negb_true_iff in Ha. rewrite Ha. by apply IH.
Qed.

Lemma rfind_from_append (c : ascii) (s1 s2 : string) :
  forall i best,
  rfind_from c (s1 +:+ s2) i best =
  rfind_from c s2 (i + Z.of_nat (String.length s1))%Z (rfind_from c s1 i best).
Proof.
  induction s1 as [|a s1 IH]; intros i best; simpl.
  - f_equal. lia.
  - rewrite IH. f_equal. lia.
Qed.

Lemma substring_prefix (s1 s2 : string) :
  substring 0 (String.length s1) (s1 +:+ s2) = s1.
Proof.
  induction s1 as [|a s1 IH]; simpl; [by destruct s2|]. by rewrite IH.
Qed.

Lemma substring_whole (s : string) : substring 0 (String.length s) s = s.
Proof. induction s as [|a s IH]; simpl; [done|]. by rewrite IH. Qed.

Lemma substring_suffix (s1 s2 : string) :
  substring (String.length s1) (String.length s2) (s1 +:+ s2) = s2.
Proof.
  induction s1 as [|a s1 IH]; simpl; [apply substring_whole|done].
Qed.

Lemma length_append (s1 s2 : string) :
  String.length (s1 +:+ s2) = String.length s1 + String.length s2.
Proof. induction s1 as [|a s1 IH]; simpl; [done|]. by rewrite IH. Qed.

Lemma get_append_right (s1 s2 : string) (c : ascii) (rest : string) :
  s2 = String c rest -> String.get (String.length s1) (s1 +:+ s2) = Some c.
Proof. intros ->. induction s1 as [|a s1 IH]; simpl; done. Qed.

Lemma skip_leading_dots_splits (pre stem rest : string) (dotIndex : nat) :
  exists_char (fun c => negb (Ascii.eqb c ".")) stem = true ->
  skip_leading_dots (pre +:+ stem +:+ rest) (String.length pre)
    (String.length stem) dotIndex =
  (slice_to (pre +:+ stem +:+ rest) dotIndex,
   slice_from (pre +:+ stem +:+ rest) dotIndex).
Proof.
  revert pre. induction stem as [|c stem IH]; intros pre Hs; [done|].
  simpl String.length. simpl skip_leading_dots.
  rewrite (get_append_right pre _ c (stem +:+ rest)) by done.
  destruct (Ascii.eqb c ".") eqn:Hc; [|done].
  simpl in Hs. rewrite Hc in Hs. simpl in Hs.
  specialize (IH (pre +:+ String c EmptyString) Hs).
  rewrite length_append in IH. simpl in IH.
  replace (String.length pre + 1) with (S (String.length pre)) in IH by lia.
  assert (Heq : (pre +:+ String c EmptyString) +:+ stem +:+ rest =
                pre +:+ String c stem +:+ rest).
  { clear. induction pre as [|a pre IHp]; [done|].
    change (String a ((pre +:+ String c EmptyString) +:+ stem +:+ rest) =
            String a (pre +:+ String c stem +:+ rest)).
    by rewrite IHp. }
  rewrite Heq in IH. exact IH.
Qed.

Lemma ordinary_splitext (p_file stem : string) :
  ordinary_entry p_file stem ->
  endswith p_file ".json" = true /\ splitext p_file = (stem, ".json").
Proof.
  intros (-> & Hsep & Hdot).
  pose proof (substring_suffix stem ".json") as Hsuf.
  change (String.length ".json") with 5 in Hsuf.
  split.
  - unfold endswith. rewrite length_append.
    change (String.length ".json") with 5.
    replace (String.length stem + 5 - 5) with (String.length stem) by lia.
    rewrite Hsuf.
    apply andb_true_iff. split; [apply Nat.leb_le; lia|done].
  - unfold splitext, rfind. rewrite !rfind_from_append.
    rewrite (rfind_from_absent "/" stem) by done.
    cbn [rfind_from Ascii.eqb Bool.eqb].
    assert (Hlt : (-1 <? 0 + Z.of_nat (String.length stem))%Z = true)
      by (apply Z.ltb_lt; lia).
    rewrite Hlt.
    replace (Z.to_nat (-1 + 1)) with 0 by done.
    replace (Z.to_nat (0 + Z.of_nat (String.length stem))) with (String.length stem)
      by lia.
    rewrite Nat.sub_0_r.
    pose proof (skip_leading_dots_splits EmptyString stem ".json"
                  (String.length stem) Hdot) as Hskip.
    change (EmptyString +:+ stem +:+ ".json") with (stem +:+ ".json") in Hskip.
    change (String.length EmptyString) with 0 in Hskip.
    rewrite Hskip. unfold slice_to, slice_from.
    rewrite substring_prefix, length_append.
    change (String.length ".json") with 5.
    replace (String.length stem + 5 - String.length stem) with 5 by lia.
    by rewrite Hsuf.
Qed.

(** X9. For an ordinary entry [stem.json] the loop's test accepts the
    entry and the identifier it derives is the stem, so the file name is
    the identifier followed by ".json" and the entry is the one document
    of its listing. *)
Theorem ordinary_entry_stem (p_file stem : string) :
  ordinary_entry p_file stem ->
  endswith p_file ".json" = true /\
  fst (splitext p_file) +:+ ".json" = p_file /\
  documents [p_file] = [stem].
Proof.
  intros Hord. destruct (ordinary_splitext _ _ Hord) as [Hend Hsplit].
  split; [done|]. split.
  - rewrite Hsplit. simpl. by destruct Hord as [-> _].
  - unfold documents. rewrite filter_cons_True by done.
    simpl. by rewrite Hsplit.
Qed.

Lemma append_json_inj (s1 s2 : string) :
  s1 +:+ ".json" = s2 +:+ ".json" -> s1 = s2.
Proof.
  intros Heq.
  rewrite <- (substring_prefix s1 ".json"), <- (substring_prefix s2 ".json").
  assert (Hlen : String.length s1 = String.length s2).
  { apply (f_equal String.length) in Heq. rewrite !length_append in Heq. lia. }
  by rewrite Heq, Hlen.
Qed.

(** X10. Distinct ordinary entries have distinct identifiers: over a
    listing without repeated names whose [.json] entries are all
    ordinary, the identifiers of the documents are pairwise distinct. *)
Theorem ordinary_listing_distinct_ids (listing : list string) :
  NoDup listing ->
  Forall (fun p_file => exists stem, ordinary_entry p_file stem)
    (json_entries listing) ->
  NoDup (documents listing).
Proof.
  intros Hnd Hord. unfold documents. fold (json_entries listing).
  change (NoDup ((fun p_file => fst (splitext p_file)) <$> json_entries listing)).
  apply NoDup_fmap_2_strong; [|by apply NoDup_filter].
  intros p1 p2 Hin1 Hin2 Heq.
  destruct (proj1 (Forall_forall _ _) Hord p1 Hin1) as [stem1 Ho1].
  destruct (proj1 (Forall_forall _ _) Hord p2 Hin2) as [stem2 Ho2].
  destruct (ordinary_splitext _ _ Ho1) as [_ Hs1].
  destruct (ordinary_splitext _ _ Ho2) as [_ Hs2].
  rewrite Hs1, Hs2 in Heq. simpl in Heq. subst stem2.
  destruct Ho1 as [-> _]. destruct Ho2 as [-> _]. done.
Qed.

(** X11. The rendered context depends on the five named fields only: a
    value stored under any other key leaves it as it was. *)
Theorem context_ignores_other_keys (fields : gmap string field)
    (key : string) (value : field) :
  key ∉ map snd field_order ->
  _create_problem_context (Dict (<[key := value]> fields)) =
  _create_problem_context (Dict fields).
Proof.
  intros Hkey. unfold _create_problem_context, format_get.
  assert (Hne : forall k, k ∈ map snd field_order -> key <> k)
    by (intros k Hk ->; done).
  rewrite !lookup_insert_ne; [done|..]; apply Hne; simpl;
    repeat (first [apply list_elem_of_here|apply list_elem_of_further]).
Qed.

End StringExtras.

Section RespondExtras.
Context {E : Env}.

Lemma retrieve_embedded (query : string) (top_k : nat) (w : world E) :
  embedded (trace (snd (_retrieve_relevant_info query top_k w))) =
  embedded (trace w) ++ [query].
Proof.
  rewrite retrieve_run.
  destruct (bert E query) as [qv|e]; [|simpl; by rewrite embedded_app].
  destruct (search _ qv top_k) as [[distances indices]|e];
    [|simpl; by rewrite embedded_app].
  destruct (resolve_hits _ _ _); simpl; by rewrite embedded_app.
Qed.

Lemma augmented_embeds_nothing (user_input : string) (b : base_state E)
    (retrieved : list result) :
  embedded (snd (augmented user_input b retrieved)) = [].
Proof.
  unfold augmented. destruct (render_parts retrieved); [|done].
  destruct (current_context_of b); [|done].
  by destruct (_build_system_message E b).
Qed.

(** X12. On the augmented path (the base chatbot has answered, the
    input is no greeting, a problem is current) [respond] hands the
    embedding model exactly one text, the stripped input, whatever
    happens afterwards. *)
Theorem respond_embeds_stripped_input_once (user_input : string) (w : world E)
    (r : string) (b : base_state E) :
  base_respond E (py_strip E user_input) (base (self w)) = (Return r, b) ->
  is_greeting (py_strip E user_input) = false ->
  current_problem E b = true ->
  embedded (trace (snd (respond user_input w))) =
  embedded (trace w) ++ [py_strip E user_input].
Proof.
  intros Hbase Hgreet Hcp.
  destruct (respond_augmented_run _ _ _ _ Hbase Hgreet Hcp)
    as (retrieved & w1 & Hret & ->).
  simpl. rewrite embedded_app, augmented_embeds_nothing, app_nil_r.
  pose proof (retrieve_embedded (py_strip E user_input) 3 (with_base b w))
    as Hemb.
  rewrite Hret in Hemb. exact Hemb.
Qed.

(** X13. A retrieval that fails does not stop the answer: when the
    embedding of the input raises, [respond] prints the diagnostic and
    goes on to the generation call with an empty retrieved section, and
    its outcome is the outcome of that call. *)
Theorem respond_generates_after_failed_retrieval (user_input : string)
    (w : world E) (r : string) (b : base_state E) (e : exn)
    (current_context system_message : string) :
  base_respond E (py_strip E user_input) (base (self w)) = (Return r, b) ->
  is_greeting (py_strip E user_input) = false ->
  current_problem E b = true ->
  bert E (py_strip E user_input) = Raise e ->
  current_context_of b = Return current_context ->
  _build_system_message E b = Return system_message ->
  respond user_input w =
  (generate_response E
     (final_prompt (py_strip E user_input) EmptyString current_context)
     (conversation_history E b) system_message,
   add_events (with_base b w)
     [Embed (py_strip E user_input);
      Print ("Retrieval error: " +:+ str e);
      Generate (final_prompt (py_strip E user_input) EmptyString
                  current_context)]).
Proof.
  intros Hbase Hgreet Hcp Hbert Hcc Hsm.
  destruct (respond_augmented_run _ _ _ _ Hbase Hgreet Hcp)
    as (retrieved & w1 & Hret & ->).
  rewrite retrieve_run, Hbert in Hret. simplify_eq.
  unfold augmented. simpl render_parts. rewrite Hcc, Hsm. simpl.
  unfold add_events. simpl. by rewrite <- app_assoc.
Qed.

Lemma render_parts_dicts (retrieved : list (result (E:=E))) :
  Forall (fun r : result => exists fields, snd r = Dict fields) retrieved ->
  exists parts, render_parts retrieved = Return parts.
Proof.
  induction 1 as [|[[pid score] data] rest [fields Hd] Hrest [parts IH]];
    simpl; [by eexists|].
  simpl in Hd. subst data. simpl. rewrite IH. by eexists.
Qed.

Lemma retrieved_dicts (w : world E) (query : string) (top_k : nat)
    (results : list result) :
  consistent (self w) ->
  fst (_retrieve_relevant_info query top_k w) = Return results ->
  Forall (fun r : result => exists fields, snd r = Dict fields) results.
Proof.
  intros [_ Hdocs] Hres.
  destruct (retrieve_results _ _ _ _ Hres) as [->|(qv & _ & HF)];
    [constructor|].
  eapply Forall2_right; [exact HF|].
  intros h r (_ & Hid & _ & Hdoc).
  apply list_elem_of_lookup_2 in Hid.
  destruct (Hdocs _ Hid) as [fields Hf]. exists fields. congruence.
Qed.

(** X14. With a consistent knowledge base the augmented path always
    reaches the generation model: once the current-problem context and
    the system message are built, [respond] returns what the generation
    call returns, or raises what it raises; the answer of the base
    chatbot is discarded, and the call is the last event. *)
Theorem respond_outcome_is_generation (user_input : string) (w : world E)
    (r : string) (b : base_state E) (current_context system_message : string) :
  consistent (self w) ->
  base_respond E (py_strip E user_input) (base (self w)) = (Return r, b) ->
  is_greeting (py_strip E user_input) = false ->
  current_problem E b = true ->
  current_context_of b = Return current_context ->
  _build_system_message E b = Return system_message ->
  exists rag_context events,
    respond user_input w =
    (generate_response E
       (final_prompt (py_strip E user_input) rag_context current_context)
       (conversation_history E b) system_message,
     add_events (with_base b w)
       (events ++
        [Generate (final_prompt (py_strip E user_input) rag_context
                     current_context)])).
Proof.
  intros Hcons Hbase Hgreet Hcp Hcc Hsm.
  destruct (respond_augmented_run _ _ _ _ Hbase Hgreet Hcp)
    as (retrieved & w1 & Hret & ->).
  assert (Hcons' : consistent (self (with_base b w))) by exact Hcons.
  assert (Hd : Forall (fun r : result => exists fields, snd r = Dict fields)
                 retrieved).
  { apply (retrieved_dicts (with_base b w) (py_strip E user_input) 3);
      [done|by rewrite Hret]. }
  destruct (render_parts_dicts _ Hd) as [parts Hparts].
  unfold augmented. rewrite Hparts, Hcc, Hsm. simpl.
  exists (String.concat PyStr.nl parts).
  assert (Hw1 : exists events, w1 = add_events (with_base b w) events).
  { rewrite retrieve_run in Hret.
    destruct (bert E (py_strip E user_input)) as [qv|e];
      [|simplify_eq; by eexists].
    destruct (search _ qv 3) as [[distances indices]|e];
      [|simplify_eq; by eexists].
    destruct (resolve_hits _ _ _); simplify_eq; by eexists. }
  destruct Hw1 as [events ->]. exists events.
  unfold add_events. simpl. by rewrite <- app_assoc.
Qed.

End RespondExtras.

(** * The further properties on the stub environment *)

Module ExtraChecks.
Import PyStr OsPath Stub.

Lemma one_doc_consistent : consistent (self one_doc).
Proof.
  split; [reflexivity|]. intros id Hin.
  apply list_elem_of_singleton in Hin as ->.
  exists {[ "title" := FStr "Two Sum" ]}. apply lookup_singleton_eq.
Defined.

Lemma built_map_witness :
  "bfs" ∈ problem_ids (self (snd (__init__ (E:=env) mixed_listing))) /\
  is_Some (problem_data_map (self (snd (__init__ (E:=env) mixed_listing)))
             !! "bfs").
Proof.
  assert (Hin : "bfs" ∈ problem_ids (self (snd (__init__ (E:=env) mixed_listing))))
    by (apply (bool_decide_unpack _); vm_compute; exact I).
  split; [exact Hin|].
  exact (proj1 (proj1 (built_map_matches_ids (E:=env) mixed_listing "bfs")) Hin).
Defined.

Lemma already_built_consistent : consistent (self already_built).
Proof.
  split; [reflexivity|]. intros id Hin.
  apply list_elem_of_singleton in Hin as ->.
  exists {[ "title" := FStr "bfs" ]}. apply lookup_singleton_eq.
Defined.

(** A build over a state that already holds the document "bfs": the new
    identifiers and vectors follow the old ones, and "bfs", which is in
    the listing, is appended a second time. *)
Lemma build_extends_witness :
  (forall text v, bert env text = Return v -> length v = DIM) /\
  d (index (self already_built)) = DIM /\
  consistent (self already_built) /\
  problem_ids (self already_built) = ["bfs"] /\
  xb (index (self already_built)) = [unit_vec 50] /\
  exists w' : world env,
    _build_knowledge_base mixed_listing already_built = (Return tt, w') /\
    problem_ids (self w') = ["bfs"; "two_sum"; "bfs"] /\
    xb (index (self w')) = [unit_vec 50; unit_vec 54; unit_vec 50] /\
    d (index (self w')) = DIM /\
    consistent (self w').
Proof.
  split; [exact Checks.stub_bert_dim|]. split; [reflexivity|].
  split; [exact already_built_consistent|].
  split; [reflexivity|]. split; [reflexivity|].
  exact (build_extends_consistently (E:=env) mixed_listing already_built
           Checks.stub_bert_dim eq_refl already_built_consistent).
Defined.

Lemma retrieval_complete_witness :
  consistent (self one_doc) /\
  bert env1 "abc" = Return [3%Z] /\
  length [3%Z] = d (index (self one_doc)) /\
  exists results : list (result (E:=env1)),
    _retrieve_relevant_info "abc" 5 one_doc =
      (Return results, add_events one_doc [Embed "abc"; IndexSearch 5]) /\
    length results = 1 /\
    Forall (fun r : result (E:=env1) =>
              fst (fst r) ∈ problem_ids (self one_doc) /\
              problem_data_map (self one_doc) !! fst (fst r) = Some (snd r) /\
              exists fields, snd r = Dict fields) results.
Proof.
  split; [exact one_doc_consistent|]. split; [reflexivity|].
  split; [reflexivity|].
  exact (retrieval_complete_when_consistent (E:=env1) one_doc "abc" 5 [3%Z]
           one_doc_consistent eq_refl eq_refl).
Defined.

Lemma missing_document_witness :
  bert env1 "abc" = Return [3%Z] /\
  search (index (self no_document)) [3%Z] 3 =
    Return ([6; -1000000; -1000000]%Z, [0; -1; -1]%Z) /\
  exists e,
    _retrieve_relevant_info (E:=env1) "abc" 3 no_document =
    (Return [],
     add_events no_document
       [Embed "abc"; IndexSearch 3;
        Print ("Retrieval error: " +:+ str (E:=env1) e)]).
Proof.
  split; [reflexivity|]. split; [reflexivity|].
  apply (missing_document_empties_result (E:=env1) no_document "abc" 3
           [3%Z] [6; -1000000; -1000000]%Z [0; -1; -1]%Z eq_refl eq_refl).
  exists (0%Z, 6%Z), "p1".
  split; [apply list_elem_of_here|]. split; [simpl; lia|].
  split; reflexivity.
Defined.

Lemma results_distinct_witness :
  NoDup (problem_ids (self tied_docs)) /\
  fst (_retrieve_relevant_info (E:=env1) "abc" 3 tied_docs) =
    Return [("p3", 15%Z, p3_doc); ("p2", 15%Z, p2_doc); ("p1", 6%Z, p1_doc)] /\
  NoDup ["p3"; "p2"; "p1"].
Proof.
  assert (Hnd : NoDup (problem_ids (self tied_docs)))
    by (apply (bool_decide_unpack _); vm_compute; exact I).
  split; [exact Hnd|]. split; [reflexivity|].
  exact (retrieval_results_distinct (E:=env1) tied_docs "abc" 3
           [("p3", 15%Z, p3_doc); ("p2", 15%Z, p2_doc); ("p1", 6%Z, p1_doc)]
           Hnd eq_refl).
Defined.

Lemma two_sum_ordinary : ordinary_entry "two_sum.json" "two_sum".
Proof. repeat split. Defined.

Lemma ordinary_entry_witness :
  ordinary_entry "two_sum.json" "two_sum" /\
  endswith "two_sum.json" ".json" = true /\
  fst (splitext "two_sum.json") +:+ ".json" = "two_sum.json" /\
  documents ["two_sum.json"] = ["two_sum"].
Proof.
  split; [exact two_sum_ordinary|].
  exact (ordinary_entry_stem "two_sum.json" "two_sum" two_sum_ordinary).
Defined.

Lemma ordinary_listing_witness :
  NoDup mixed_listing /\
  Forall (fun p_file => exists stem, ordinary_entry p_file stem)
    (json_entries mixed_listing) /\
  NoDup (documents mixed_listing).
Proof.
  assert (Hnd : NoDup mixed_listing)
    by (apply (bool_decide_unpack _); vm_compute; exact I).
  assert (Hord : Forall (fun p_file => exists stem, ordinary_entry p_file stem)
                   (json_entries mixed_listing)).
  { change (json_entries mixed_listing)
      with ["two_sum.json"; "missing.json"; "array.json"; "boom.json";
            "bfs.json"].
    repeat constructor.
    - by exists "two_sum".
    - by exists "missing".
    - by exists "array".
    - by exists "boom".
    - by exists "bfs". }
  split; [exact Hnd|]. split; [exact Hord|].
  exact (ordinary_listing_distinct_ids mixed_listing Hnd Hord).
Defined.

Lemma other_keys_witness :
  ("difficulty" ∉ map snd field_order) /\
  _create_problem_context
    (Dict (<["difficulty" := FStr "hard"]> {[ "title" := FStr "Two Sum" ]})) =
  _create_problem_context (Dict {[ "title" := FStr "Two Sum" ]}).
Proof.
  assert (Hkey : "difficulty" ∉ map snd field_order)
    by (apply (bool_decide_unpack _); vm_compute; exact I).
  split; [exact Hkey|].
  exact (context_ignores_other_keys _ "difficulty" (FStr "hard") Hkey).
Defined.

Lemma embeds_once_witness :
  base_respond env1 "explain" (base (self one_doc))
    = (Return "echo: explain", Some "p1") /\
  is_greeting (E:=env1) (py_strip env1 "  explain  ") = false /\
  embedded (trace (snd (respond (E:=env1) "  explain  " one_doc))) = ["explain"].
Proof.
  split; [reflexivity|]. split; [reflexivity|].
  exact (respond_embeds_stripped_input_once (E:=env1) "  explain  " one_doc
           "echo: explain" (Some "p1") eq_refl eq_refl eq_refl).
Defined.

Lemma failed_retrieval_witness :
  bert env "boom?" = Raise (ExternalError "out of memory") /\
  is_greeting (E:=env) (py_strip env " boom? ") = false /\
  fst (respond (E:=env) " boom? " empty_with_problem) = Return "generated" /\
  printed (trace (snd (respond (E:=env) " boom? " empty_with_problem))) =
    ["Retrieval error: out of memory"].
Proof.
  split; [reflexivity|]. split; [reflexivity|].
  pose proof (respond_generates_after_failed_retrieval (E:=env) " boom? "
                empty_with_problem "echo: boom?" (Some "p1")
                (ExternalError "out of memory")
                (nl +:+ "Current Problem Context:" +:+ nl +:+ "p1")
                "You are a helpful assistant."
                eq_refl eq_refl eq_refl eq_refl eq_refl eq_refl) as Hrun.
  rewrite Hrun. split; reflexivity.
Defined.

Lemma outcome_is_generation_witness :
  consistent (self one_doc) /\
  is_greeting (E:=env1) (py_strip env1 "  explain  ") = false /\
  exists rag_context events,
    respond (E:=env1) "  explain  " one_doc =
    (Return "generated",
     add_events (with_base (E:=env1) (Some "p1") one_doc)
       (events ++
        [Generate (final_prompt "explain" rag_context
                     (nl +:+ "Current Problem Context:" +:+ nl +:+ "p1"))])).
Proof.
  split; [exact one_doc_consistent|]. split; [reflexivity|].
  exact (respond_outcome_is_generation (E:=env1) "  explain  " one_doc
           "echo: explain" (Some "p1")
           (nl +:+ "Current Problem Context:" +:+ nl +:+ "p1")
           "You are a helpful assistant."
           one_doc_consistent eq_refl eq_refl eq_refl eq_refl eq_refl).
Defined.

End ExtraChecks.
